(** * ovos-PHAL-plugin-mk1: the Mark 1 serial bridge

    A shallow embedding of [ovos_PHAL_plugin_mk1/arduino.py] (the
    [EnclosureReader] and [EnclosureWriter] threads) and of the command
    formatters of [ovos_PHAL_plugin_mk1/__init__.py] (class [MycroftMark1]),
    with the properties of the bridge proved about them.

    Conventions of the embedding
    - a Python [str] is a [string]; [len], slicing and [+] are
      [String.length], [substring] and [+:+];
    - a [bytes] value is a [list byte];
    - a Python [int] is a [Z] (unbounded, as in Python);
    - [message.data] is a [gmap string pyval];
    - [time.sleep(s)] is recorded in the trace as [Sleep ms], with the
      duration in milliseconds;
    - a method that talks to the bus, the queue or the log returns the list
      of the calls it makes, in program order. *)

From Stdlib Require Import ZArith NArith List Ascii String Strings.Byte Lia.
From Stdlib Require Import DecimalString.
From Stdlib Require Import Floats.SpecFloat.
From stdpp Require Import base decidable option list gmap strings.

(** * Part I: the embedding *)

(** ** Python values and exceptions *)

(** The values a bus message carries in its [data] dict: the JSON scalars
    and the list of (r, g, b) tuples of the eye-colour reply. *)
Inductive pyval :=
| PyNone
| PyBool (b : bool)
| PyInt (z : Z)
| PyStr (s : string)
| PyRGBList (l : list (Z * Z * Z)).

Inductive exn := TypeError | ValueError | IndexError | OverflowError.

(** A call either returns a value or raises. *)
Inductive result (A : Type) :=
| Ok (a : A)
| Raise (e : exn).
Arguments Ok {A} a.
Arguments Raise {A} e.

Global Instance result_ret : MRet result := @Ok.
Global Instance result_bind : MBind result :=
  λ A B f m, match m with Ok a => f a | Raise e => Raise e end.

Global Instance pyval_eq_dec : EqDecision pyval.
Proof. solve_decision. Defined.

(** [ovos_bus_client.Message(msg_type, data=None)]: [data] defaults to the
    empty dict.  The routing context of a message plays no role here. *)
Record Message := mkMessage { msg_type : string; data : gmap string pyval }.

Definition Msg (t : string) : Message := mkMessage t ∅.

(** The observable calls of the bridge. *)
Inductive action :=
| Emit (m : Message)          (* self.bus.emit(m) *)
| Sleep (ms : N)              (* time.sleep(ms / 1000) *)
| Write (command : string)    (* self.writer.write(command) *)
| SerialWrite (text : string) (* self.serial.write(text.encode()) *)
| TaskDone                    (* self.commands.task_done() *)
| LogWarning                  (* LOG.warning(...) *)
| LogError.                   (* LOG.error(...) *)

Global Instance Message_eq_dec : EqDecision Message.
Proof. solve_decision. Defined.

Global Instance action_eq_dec : EqDecision action.
Proof. solve_decision. Defined.

Definition when {A} (b : bool) (l : list A) : list A := if b then l else [].

(** ** Strings *)

Definition newline : string := String "010"%char "".

(** [sub in s] on [str]. *)
Fixpoint isin (sub s : string) : bool :=
  String.prefix sub s ||
  match s with
  | EmptyString => false
  | String _ s' => isin sub s'
  end.

(** [s[:n]] and [s[n:]] for [n >= 0]. *)
Definition slice_to (n : nat) (s : string) : string := substring 0 n s.
Definition slice_from (n : nat) (s : string) : string :=
  substring n (String.length s - n) s.

(** [str(z)] for an [int]. *)
Definition str_of_int (z : Z) : string := NilZero.string_of_int (Z.to_int z).

Fixpoint join (sep : string) (l : list string) : string :=
  match l with
  | [] => ""
  | [x] => x
  | x :: l' => x +:+ sep +:+ join sep l'
  end.

Definition repr_rgb (p : Z * Z * Z) : string :=
  let '(r, g, b) := p in
  "(" +:+ str_of_int r +:+ ", " +:+ str_of_int g +:+ ", " +:+ str_of_int b +:+ ")".

(** [str(v)]. *)
Definition py_str (v : pyval) : string :=
  match v with
  | PyNone => "None"
  | PyBool true => "True"
  | PyBool false => "False"
  | PyInt z => str_of_int z
  | PyStr s => s
  | PyRGBList l => "[" +:+ join ", " (repr_rgb <$> l) +:+ "]"
  end.

(** [int(s)] for a [str], base 10: surrounding white space, an optional sign,
    then digits, single underscores allowed between digits. *)
Definition is_space (c : ascii) : bool :=
  let n := nat_of_ascii c in
  ((9 <=? n) && (n <=? 13)) || (n =? 32) || (n =? 133) || (n =? 160).

Definition digit_of (c : ascii) : option Z :=
  let n := nat_of_ascii c in
  if (48 <=? n) && (n <=? 57) then Some (Z.of_nat (n - 48)) else None.

Fixpoint lstrip (l : list ascii) : list ascii :=
  match l with
  | c :: l' => if is_space c then lstrip l' else l
  | [] => []
  end.

Fixpoint parse_digits (acc : Z) (after_digit : bool) (l : list ascii) : option Z :=
  match l with
  | [] => if after_digit then Some acc else None
  | c :: l' =>
      match digit_of c with
      | Some d => parse_digits (10 * acc + d) true l'
      | None =>
          if Ascii.eqb c "_" && after_digit then parse_digits acc false l' else None
      end
  end.

Definition int_of_str (s : string) : option Z :=
  let body := rev (lstrip (rev (lstrip (list_ascii_of_string s)))) in
  match body with
  | "-"%char :: ds => Z.opp <$> parse_digits 0 false ds
  | "+"%char :: ds => parse_digits 0 false ds
  | ds => parse_digits 0 false ds
  end.

(** [int(v)]. *)
Definition py_int (v : pyval) : result Z :=
  match v with
  | PyInt z => Ok z
  | PyBool b => Ok (if b then 1 else 0)%Z
  | PyStr s => match int_of_str s with Some z => Ok z | None => Raise ValueError end
  | PyNone | PyRGBList _ => Raise TypeError
  end.

(** [s + v] with [s] a [str]. *)
Definition str_add (s : string) (v : pyval) : result string :=
  match v with
  | PyStr t => Ok (s +:+ t)
  | _ => Raise TypeError
  end.

(** [message and message.data]: the dict when there is a message and its
    dict is not empty. *)
Definition truthy_data (message : option Message) : option (gmap string pyval) :=
  match message with
  | Some m => if bool_decide (data m = ∅) then None else Some (data m)
  | None => None
  end.

(** [d.get(key, dflt)]. *)
Definition dict_get (d : gmap string pyval) (key : string) (dflt : pyval) : pyval :=
  default dflt (d !! key).

(** * arduino.py: EnclosureReader.process *)

Module Reader.

(** Lines 72-73: the raw line re-published as a bus message of that name. *)
Definition pass_through (line : string) : list action :=
  when (negb (isin "mycroft.stop" line)) [Emit (Msg line)].

Definition eyes_gray : Message :=
  mkMessage "enclosure.eyes.color"
            (<["r" := PyInt 70]> (<["g" := PyInt 65]> (<["b" := PyInt 69]> ∅))).

Definition play_sound : gmap string pyval := <["play_sound" := PyBool true]> ∅.

Definition on_version : list action := [Emit (Msg "enclosure.started")].
Definition on_stop : list action := [Emit (Msg "mycroft.stop")].
Definition on_volume_up : list action :=
  [Emit (mkMessage "mycroft.volume.increase" play_sound)].
Definition on_volume_down : list action :=
  [Emit (mkMessage "mycroft.volume.decrease" play_sound)].

Definition on_shutdown : list action :=
  [ Emit eyes_gray;
    Emit (mkMessage "enclosure.eyes.timedspin" (<["length" := PyInt 12000]> ∅));
    Emit (Msg "enclosure.mouth.reset");
    Sleep 500;
    Emit (Msg "system.shutdown") ].

Definition on_reboot : list action :=
  [ Emit eyes_gray;
    Emit (Msg "enclosure.eyes.spin");
    Emit (Msg "enclosure.mouth.reset");
    Sleep 500;
    Emit (Msg "system.reboot") ].

(** Lines 75-120: the marker tests, each an independent [if]. *)
Definition classify (line : string) : list action :=
  when (isin "Command: system.version" line) on_version ++
  when (isin "mycroft.stop" line) on_stop ++
  when (isin "volume.up" line) on_volume_up ++
  when (isin "volume.down" line) on_volume_down ++
  when (isin "unit.shutdown" line) on_shutdown ++
  when (isin "unit.reboot" line) on_reboot ++
  when (isin "unit.setwifi" line) [Emit (Msg "system.wifi.setup")] ++
  when (isin "unit.factory-reset" line) [Emit (Msg "system.factory.reset")] ++
  when (isin "unit.enable-ssh" line) [Emit (Msg "system.ssh.enable")] ++
  when (isin "unit.disable-ssh" line) [Emit (Msg "system.ssh.disable")].

Definition process (line : string) : list action :=
  pass_through line ++ classify line.

(** The marker substrings the classification looks for. *)
Definition markers : list string :=
  [ "Command: system.version"; "mycroft.stop"; "volume.up"; "volume.down";
    "unit.shutdown"; "unit.reboot"; "unit.setwifi"; "unit.factory-reset";
    "unit.enable-ssh"; "unit.disable-ssh" ].

Definition unmarked (line : string) : bool :=
  forallb (fun m => negb (isin m line)) markers.


(** ** EnclosureReader.read *)

(** What [self.serial.readline()] does in one iteration: it returns the
    bytes read (none on a timeout) or raises. *)
Inductive readline_result :=
| Line (raw : list byte)
| ReadError.

(** Line 52: [raw[:-2]]. *)
Definition strip_terminator (raw : list byte) : list byte :=
  take (length raw - 2) raw.

(** A straight-line run of calls in which the [fault]-th [bus.emit]
    (counting from 0) raises: the calls made before it, and whether the
    exception left the block.  [None]: no call raises. *)
Fixpoint until_fault (fault : option nat) (acts : list action) : list action * bool :=
  match acts with
  | [] => ([], false)
  | Emit m :: rest =>
      match fault with
      | Some 0 => ([], true)
      | Some (S k) => let '(made, raised) := until_fault (Some k) rest in (Emit m :: made, raised)
      | None => let '(made, raised) := until_fault None rest in (Emit m :: made, raised)
      end
  | a :: rest => let '(made, raised) := until_fault fault rest in (a :: made, raised)
  end.

Section Codec.

(** [bytes.decode()] (strict UTF-8, [None] when it raises [UnicodeError])
    and [bytes.decode('utf-8', errors='replace')] (which never raises)
    are the interpreter's. *)
Variable decode_strict : list byte → option string.
Variable decode_replace : list byte → string.

(** Lines 54-59. *)
Definition decode (data : list byte) : list action * string :=
  match decode_strict data with
  | Some s => ([], s)
  | None => ([LogWarning], decode_replace data)
  end.

(** Lines 53-60: the calls of the [try] body after the read, when none
    of them raises. *)
Definition handle (data : list byte) : list action :=
  match data with
  | [] => []
  | _ => let '(warned, data_str) := decode data in warned ++ process data_str
  end.

(** Lines 51-62: one pass through the loop body. *)
Definition read_iter (r : readline_result) (fault : option nat) : list action :=
  match r with
  | ReadError => [LogError]
  | Line raw =>
      let '(made, raised) := until_fault fault (handle (strip_terminator raw)) in
      made ++ when raised [LogError]
  end.

(** The reader thread: [alive] is the flag of the object, [exited] says
    that the [while] test has seen it cleared and [read] has returned. *)
Record reader := mkReader { alive : bool; exited : bool; log : list action }.

(** [__init__]. *)
Definition init : reader := mkReader true false [].

Definition stop (st : reader) : reader := mkReader false (exited st) (log st).

(** What happens to the thread: [stop()] is called from outside, or the
    thread runs the loop test and, if it passes, the body. *)
Inductive event :=
| Stop
| Iteration (r : readline_result) (fault : option nat).

Definition step (st : reader) (ev : event) : reader :=
  match ev with
  | Stop => stop st
  | Iteration r fault =>
      if exited st then st
      else if alive st then mkReader true false (log st ++ read_iter r fault)
      else mkReader false true (log st)
  end.

Definition read (evs : list event) (st : reader) : reader := fold_left step evs st.

End Codec.

(** A codec to run the reader on 7-bit input: such bytes decode to
    themselves; a line with any other byte is refused by the strict decoder,
    and the permissive one puts ["?"] where the interpreter puts U+FFFD. *)
Definition is_7bit (b : byte) : bool := (Byte.to_N b <? 128)%N.

Definition ascii_strict (data : list byte) : option string :=
  if forallb is_7bit data then Some (string_of_list_byte data) else None.

Definition ascii_replace (data : list byte) : string :=
  string_of_list_byte (map (λ b, if is_7bit b then b else x3f) data).

End Reader.

(** * arduino.py: EnclosureWriter *)

Module Writer.

(** ** [queue.Queue(maxsize)] *)

Record Queue := mkQueue { maxsize : Z; items : list string; unfinished_tasks : Z }.

Definition Queue_new (maxsize : Z) : Queue := mkQueue maxsize [] 0.

Definition full (q : Queue) : bool :=
  (0 <? maxsize q)%Z && (maxsize q <=? Z.of_nat (length (items q)))%Z.

(** [put(item)], blocking: [None] while the queue is full (the caller
    waits on [not_full]); it never raises. *)
Definition put (item : string) (q : Queue) : option Queue :=
  if full q then None
  else Some (mkQueue (maxsize q) (items q ++ [item]) (unfinished_tasks q + 1)).

(** [get()], blocking: [None] while the queue is empty. *)
Definition get (q : Queue) : option (string * Queue) :=
  match items q with
  | [] => None
  | item :: rest => Some (item, mkQueue (maxsize q) rest (unfinished_tasks q))
  end.

Definition task_done (q : Queue) : result Queue :=
  if (unfinished_tasks q <=? 0)%Z then Raise ValueError
  else Ok (mkQueue (maxsize q) (items q) (unfinished_tasks q - 1)).

(** ** The writer thread *)

(** Where the [flush] thread stands between two schedulings. *)
Inductive pc := AtLoopTest | InGet | Exited.

Record writer := mkWriter {
  alive : bool;
  commands : Queue;
  at_pc : pc;
  log : list action
}.

(** [__init__(serial, bus, size=16)]. *)
Definition default_size : Z := 16.
Definition init (size : Z) : writer := mkWriter true (Queue_new size) AtLoopTest [].

(** Lines 154-158 once [get()] has returned [item] and left [q]:
    [serial_ok] says whether [self.serial.write] returns. *)
Definition transmit (serial_ok : bool) (item : string) (q : Queue) : Queue * list action :=
  let cmd := item +:+ newline in
  if serial_ok then
    match task_done q with
    | Ok q' => (q', [SerialWrite cmd; TaskDone])
    | Raise _ => (q, [SerialWrite cmd; LogError])
    end
  else (q, [SerialWrite cmd; LogError]).

Definition dequeue (serial_ok : bool) (w : writer) : writer :=
  match get (commands w) with
  | None => mkWriter (alive w) (commands w) InGet (log w)
  | Some (item, q) =>
      let '(q', acts) := transmit serial_ok item q in
      mkWriter (alive w) q' AtLoopTest (log w ++ acts)
  end.

(** One scheduling of the [flush] thread: the loop test and then the body,
    or the pending [get()]. *)
Definition flush (serial_ok : bool) (w : writer) : writer :=
  match at_pc w with
  | Exited => w
  | InGet => dequeue serial_ok w
  | AtLoopTest =>
      if alive w then dequeue serial_ok w
      else mkWriter (alive w) (commands w) Exited (log w)
  end.

(** [write(command)]: [self.commands.put(str(command))], for a [str]
    command.  [None]: the caller is blocked in [put]. *)
Definition write (command : string) (w : writer) : option writer :=
  match put command (commands w) with
  | Some q => Some (mkWriter (alive w) q (at_pc w) (log w))
  | None => None
  end.

Definition stop (w : writer) : writer :=
  mkWriter false (commands w) (at_pc w) (log w).

(** ** Producers and the writer thread together *)

(** [blocked]: the commands of the callers waiting inside [put];
    [enqueued]: the commands in the order their [put] completed. *)
Record system := mkSystem {
  the_writer : writer;
  blocked : list string;
  enqueued : list string
}.

Inductive event :=
| CallWrite (command : string)   (* some thread calls writer.write(command) *)
| Resume (i : nat)               (* the i-th waiting caller re-tests the queue *)
| Flush (serial_ok : bool)       (* the flush thread is scheduled *)
| Stop.                          (* writer.stop() *)

Definition step (s : system) (ev : event) : system :=
  match ev with
  | CallWrite c =>
      match write c (the_writer s) with
      | Some w => mkSystem w (blocked s) (enqueued s ++ [c])
      | None => mkSystem (the_writer s) (blocked s ++ [c]) (enqueued s)
      end
  | Resume i =>
      match blocked s !! i with
      | Some c =>
          match write c (the_writer s) with
          | Some w => mkSystem w (delete i (blocked s)) (enqueued s ++ [c])
          | None => s
          end
      | None => s
      end
  | Flush ok => mkSystem (flush ok (the_writer s)) (blocked s) (enqueued s)
  | Stop => mkSystem (stop (the_writer s)) (blocked s) (enqueued s)
  end.

Definition run (evs : list event) (s : system) : system := fold_left step evs s.

(** The system [MycroftMark1.__init__] creates: [EnclosureWriter(serial, bus)]. *)
Definition start : system := mkSystem (init default_size) [] [].

(** The commands handed to the link, in order. *)
Definition handed (l : list action) : list string :=
  omap (λ a, match a with SerialWrite t => Some t | _ => None end) l.

Definition acknowledged (l : list action) : nat :=
  length (filter (λ a, a = TaskDone) l).

(** The text of a command on the wire. *)
Definition framed (item : string) : string := item +:+ newline.



End Writer.

(** * __init__.py: MycroftMark1 *)

(** ** Python's [float]: IEEE 754 binary64, round to nearest even *)

Module Float64.

Definition prec : Z := 53.
Definition emax : Z := 1024.

(** A literal or converted integer, correctly rounded. *)
Definition lit (z : Z) : spec_float := binary_normalize prec emax z 0 false.

(** [float(z)] as done by an arithmetic operator on an [int] operand:
    [OverflowError] when [z] is out of range. *)
Definition of_int (z : Z) : result spec_float :=
  match lit z with
  | S754_infinity _ => Raise OverflowError
  | f => Ok f
  end.

Definition mul : spec_float → spec_float → spec_float := SFmul prec emax.
Definition div : spec_float → spec_float → spec_float := SFdiv prec emax.

(** [n / d] rounded to the nearest integer, ties to the even one ([0 < d]). *)
Definition round_half_even (n d : Z) : Z :=
  let q := (n / d)%Z in
  match (2 * (n mod d) ?= d)%Z with
  | Lt => q
  | Gt => (q + 1)%Z
  | Eq => if Z.even q then q else (q + 1)%Z
  end.

(** [round(x)] with one argument. *)
Definition round (x : spec_float) : result Z :=
  match x with
  | S754_zero _ => Ok 0%Z
  | S754_infinity _ => Raise OverflowError
  | S754_nan => Raise ValueError
  | S754_finite s m e =>
      let n := if s then Zneg m else Zpos m in
      Ok (if (0 <=? e)%Z then n * 2 ^ e else round_half_even n (2 ^ (- e)))%Z
  end.

End Float64.

Module Mark1.

(** The attributes of the plugin object the handlers below touch. *)
Record mk1 := mkMk1 { _num_pixels : Z; _current_rgb : list (Z * Z * Z) }.

(** Lines 60-74 of [__init__]. *)
Definition init : mk1 * list action :=
  let n := (12 * 2)%Z in
  (mkMk1 n (replicate (Z.to_nat n) (255, 255, 255)%Z),
   [ Write "eyes.reset"; Write "mouth.reset";
     Emit (mkMessage "system.factory.reset.register"
                     (<["skill_id" := PyStr "ovos-phal-plugin-mk1"]> ∅)) ]).

(** ** Eyes *)

(** [int(round(23.0 * percent / 100.0))]. *)
Definition fill_amount (percent : Z) : result Z :=
  x ← Float64.of_int percent;
  Float64.round (Float64.div (Float64.mul (Float64.lit 23) x) (Float64.lit 100)).

Definition on_eyes_fill (message : option Message) : result (list action) :=
  amount ← match truthy_data message with
           | Some d =>
               percent ← py_int (dict_get d "percentage" (PyInt 0));
               fill_amount percent
           | None => Ok 0%Z
           end;
  Ok [Write ("eyes.fill=" +:+ str_of_int amount)].

(** [(r * 65536) + (g * 256) + b]. *)
Definition pack_rgb (r g b : Z) : Z := (r * 65536 + g * 256 + b)%Z.

Definition on_eyes_color (message : option Message) (self : mk1)
  : result (mk1 * list action) :=
  '(r, g, b) ← match truthy_data message with
               | Some d =>
                   r ← py_int (dict_get d "r" (PyInt 255));
                   g ← py_int (dict_get d "g" (PyInt 255));
                   b ← py_int (dict_get d "b" (PyInt 255));
                   Ok (r, g, b)
               | None => Ok (255, 255, 255)%Z
               end;
  let color := pack_rgb r g b in
  Ok (mkMk1 (_num_pixels self) (replicate (Z.to_nat (_num_pixels self)) (r, g, b)),
      [Write ("eyes.color=" +:+ str_of_int color)]).

(** [l[idx] = v] on a list: negative indices count from the end. *)
Definition list_setitem {A} (l : list A) (idx : Z) (v : A) : result (list A) :=
  let n := Z.of_nat (length l) in
  if ((0 <=? idx) && (idx <? n))%Z then Ok (<[Z.to_nat idx := v]> l)
  else if ((- n <=? idx) && (idx <? 0))%Z then Ok (<[Z.to_nat (idx + n) := v]> l)
  else Raise IndexError.

Definition on_eyes_set_pixel (message : option Message) (self : mk1)
  : result (mk1 * list action) :=
  '(idx, r, g, b) ← match truthy_data message with
                    | Some d =>
                        idx ← py_int (dict_get d "idx" (PyInt 0));
                        r ← py_int (dict_get d "r" (PyInt 255));
                        g ← py_int (dict_get d "g" (PyInt 255));
                        b ← py_int (dict_get d "b" (PyInt 255));
                        Ok (idx, r, g, b)
                    | None => Ok (0, 255, 255, 255)%Z
                    end;
  rgb ← list_setitem (_current_rgb self) idx (r, g, b);
  let color := pack_rgb r g b in
  Ok (mkMk1 (_num_pixels self) rgb,
      [Write ("eyes.set=" +:+ str_of_int idx +:+ "," +:+ str_of_int color)]).

(** [message.reply("enclosure.eyes.rgb", {"pixels": self._current_rgb})]. *)
Definition handle_get_color (message : Message) (self : mk1) : mk1 * list action :=
  (self, [Emit (mkMessage "enclosure.eyes.rgb"
                          (<["pixels" := PyRGBList (_current_rgb self)]> ∅))]).

(** ** Faceplate *)

(** Lines 368-383: the formatted command. *)
Definition icon_command (message : option Message) : result string :=
  '(code, x_offset, y_offset, clear_previous) ←
    match truthy_data message with
    | Some d =>
        let code := dict_get d "img_code" (PyStr "") in
        x_offset ← py_int (dict_get d "xOffset" (PyStr ""));
        y_offset ← py_int (dict_get d "yOffset" (PyStr ""));
        let clear_previous := dict_get d "clearPrev" (PyStr "") in
        Ok (code, PyInt x_offset, PyInt y_offset, clear_previous)
    | None => Ok (PyStr "", PyStr "", PyStr "", PyStr "")
    end;
  let clear_previous := PyInt (if String.eqb (py_str clear_previous) "True" then 1 else 0) in
  let clear_previous := "cP=" +:+ py_str clear_previous +:+ "," in
  let x_offset := "x=" +:+ py_str x_offset +:+ "," in
  let y_offset := "y=" +:+ py_str y_offset +:+ "," in
  str_add ("mouth.icon=" +:+ x_offset +:+ y_offset +:+ clear_previous) code.

(** Lines 384-393: one write, or two for a command over 60 characters. *)
Definition send_icon (message : string) : list action :=
  if 60 <? String.length message then
    let message1 := slice_to 31 message +:+ "$" in
    let message2 := "mouth.icon=$" +:+ slice_from 31 message in
    [Write message1; Sleep 250; Write message2]
  else
    [Sleep 100; Write message].

Definition on_display (message : option Message) : result (list action) :=
  message ← icon_command message;
  Ok (send_icon message).

(** The commands a handler enqueues, in order. *)
Definition writes (l : list action) : list string :=
  omap (λ a, match a with Write c => Some c | _ => None end) l.

(** ** The handlers as transitions of the plugin object *)

Inductive call :=
| EyesColor (message : option Message)
| EyesSetPixel (message : option Message)
| GetColor (message : Message).

(** A handler that raises leaves the attributes as they were. *)
Definition handle_call (self : mk1) (c : call) : mk1 :=
  match c with
  | EyesColor m => match on_eyes_color m self with Ok (self', _) => self' | Raise _ => self end
  | EyesSetPixel m => match on_eyes_set_pixel m self with Ok (self', _) => self' | Raise _ => self end
  | GetColor m => fst (handle_get_color m self)
  end.

End Mark1.


(** * Further handlers and measures *)

(** ** Measures on traces *)

Module Trace.

(** Time spent in [time.sleep], in milliseconds. *)
Definition slept (l : list action) : N :=
  foldr (λ a t, match a with Sleep ms => ms + t | _ => t end)%N 0%N l.

(** The number of [bus.emit] calls. *)
Definition emits (l : list action) : nat :=
  length (omap (λ a, match a with Emit m => Some m | _ => None end) l).


End Trace.

(** ** __init__.py: the other handlers of MycroftMark1 *)

Module Handlers.

(** What ends a handler early: an exception of a builtin, a missing dict
    key, or an attribute that was never assigned. *)
Inductive failure :=
| Builtin (e : exn)
| KeyError
| AttributeError.

(** Truth value of a value, as tested by [or]. *)
Definition py_truthy (v : pyval) : bool :=
  match v with
  | PyNone => false
  | PyBool b => b
  | PyInt z => negb (z =? 0)%Z
  | PyStr s => negb (String.eqb s "")
  | PyRGBList l => match l with [] => false | _ => true end
  end.

(** [v == k] for an [int] literal [k]. *)
Definition py_eq_int (v : pyval) (k : Z) : bool :=
  match v with
  | PyInt z => (z =? k)%Z
  | PyBool b => ((if b then 1 else 0) =? k)%Z
  | _ => false
  end.

(** [range(lo, hi)]. *)
Definition py_range (lo hi : Z) : list Z :=
  (λ i, lo + Z.of_nat i)%Z <$> seq 0 (Z.to_nat (hi - lo)).

(** *** Text and pairing *)

(** Lines 345-353. *)
Definition on_text (message : option Message) : result (list action) :=
  let text := match truthy_data message with
              | Some d => dict_get d "text" (PyStr "")
              | None => PyStr ""
              end in
  command ← str_add "mouth.text=" text;
  Ok [Write command].

(** The calls of the pairing handlers: those of the bridge, and the two
    methods of the plugin base class that switch the mouth events of the
    bus off and on. *)
Inductive pairing_call :=
| Bridge (a : action)
| DeactivateMouthEvents
| ActivateMouthEvents.

(** A pairing handler's run: the message as the handler leaves it (the
    handler assigns into [message.data]), the calls made, and the exception
    that ended it, if any. *)
Record pairing_run := mkRun {
  message_after : Message;
  calls : list pairing_call;
  raised : option failure
}.

Definition show_text (message : Message) (before : list pairing_call) : pairing_run :=
  match on_text (Some message) with
  | Ok acts => mkRun message (before ++ (Bridge <$> acts)) None
  | Raise e => mkRun message before (Some (Builtin e))
  end.

(** Lines 76-82. *)
Definition handle_not_paired (message : Message) : pairing_run :=
  let before := [DeactivateMouthEvents] in
  let given := dict_get (data message) "pairing_url" PyNone in
  let pairing_url := if py_truthy given then given else PyStr "home.mycroft.ai" in
  match pairing_url with
  | PyStr url =>
      let message := mkMessage (msg_type message)
                               (<["text" := PyStr (url +:+ "      ")]> (data message)) in
      show_text message before
  | _ => mkRun message before (Some (Builtin TypeError))
  end.

(** Lines 84-90. *)
Definition handle_pairing_code (message : Message) : pairing_run :=
  let before := [DeactivateMouthEvents] in
  match data message !! "code" with
  | None => mkRun message before (Some KeyError)
  | Some code =>
      let message := mkMessage (msg_type message) (<["text" := code]> (data message)) in
      show_text message before
  end.

(** Lines 92-95. *)
Definition handle_paired (message : Message) : pairing_run :=
  mkRun message [ActivateMouthEvents] None.

(** *** Nap and wake-up *)

(** [self.old_brightness]: [None] until [on_sleep] assigns it. *)
Record face := mkFace { old_brightness : option Z }.

(** [__init__] does not assign the attribute. *)
Definition fresh : face := mkFace None.

(** Lines 142-151. *)
Definition on_sleep (self : face) : face * list action :=
  let old_brightness := 30%Z in
  (mkFace (Some old_brightness),
   flat_map (λ i, let level := (old_brightness - i * 2)%Z in
                  [Write ("eyes.level=" +:+ str_of_int level); Sleep 150])
            (py_range 0 ((old_brightness - 10) `div` 2)) ++
   [Write "eyes.look=d"]).

(** Lines 133-140: the calls made, and the exception if the last line
    raises. *)
Definition on_awake (self : face) : list action * option failure :=
  let before := [Write "eyes.reset"; Sleep 1000; Write "eyes.blink=b"; Sleep 1000] in
  match old_brightness self with
  | Some b => (before ++ [Write ("eyes.level=" +:+ str_of_int b)], None)
  | None => (before, Some AttributeError)
  end.

(** *** Weather *)

(** Lines 412-437. *)
Definition weather_icon (img_code : pyval) : option string :=
  if py_eq_int img_code 0 then Some "IICEIBMDNLMDIBCEAA"
  else if py_eq_int img_code 1 then Some "IIEEGBGDHLHDHBGEEA"
  else if py_eq_int img_code 2 then Some "IIIBMDMDODODODMDIB"
  else if py_eq_int img_code 3 then Some "IIMAOJOFPBPJPFOBMA"
  else if py_eq_int img_code 4 then Some "IIMIOFOBPFPDPJOFMA"
  else if py_eq_int img_code 5 then Some "IIAAIIMEODLBJAAAAA"
  else if py_eq_int img_code 6 then Some "IIJEKCMBPHMBKCJEAA"
  else if py_eq_int img_code 7 then Some "IIABIBIBIJIJJGJAGA"
  else None.

(** Lines 410-443. *)
Definition on_weather_display (message : option Message) : list action :=
  match truthy_data message with
  | Some d =>
      let img_code := dict_get d "img_code" PyNone in
      let icon := weather_icon img_code in
      let temp := dict_get d "temp" PyNone in
      match icon with
      | Some icon =>
          if bool_decide (temp = PyNone) then []
          else
            let icon := "x=2," +:+ icon in
            [Write ("weather.display=" +:+ py_str temp +:+ "," +:+ icon)]
      | None => []
      end
  | None => []
  end.

(** *** Handlers with one argument *)

(** Lines 203-211. *)
Definition on_eyes_blink (message : option Message) : result (list action) :=
  let side := match truthy_data message with
              | Some d => dict_get d "side" (PyStr "b")
              | None => PyStr "b"
              end in
  command ← str_add "eyes.blink=" side;
  Ok [Write command].

(** Lines 217-228. *)
Definition on_eyes_look (message : option Message) : result (list action) :=
  match truthy_data message with
  | Some d =>
      let side := dict_get d "side" (PyStr "") in
      command ← str_add "eyes.look=" side;
      Ok [Write command]
  | None => Ok []
  end.

End Handlers.

(** * Part II: properties *)

(** ** Strings *)

Lemma app_cons a s t : String a s +:+ t = String a (s +:+ t).
Proof. reflexivity. Qed.

Lemma app_empty_r s : s +:+ "" = s.
Proof. induction s as [|a s IH]; [reflexivity|]. by rewrite app_cons, IH. Qed.

Lemma app_assoc_str s t u : (s +:+ t) +:+ u = s +:+ t +:+ u.
Proof. induction s as [|a s IH]; [reflexivity|]. by rewrite !app_cons, IH. Qed.

Lemma length_app_str s t :
  String.length (s +:+ t) = String.length s + String.length t.
Proof. induction s as [|a s IH]; [reflexivity|]. rewrite app_cons. simpl. by rewrite IH. Qed.

Lemma prefix_spec sub s :
  String.prefix sub s = true ↔ ∃ post, s = sub +:+ post.
Proof.
  revert s. induction sub as [|a sub IH]; intros s.
  - split; [intros _; by exists s | by destruct s].
  - destruct s as [|c s]; simpl.
    + split; [discriminate | intros [post Hp]; discriminate].
    + destruct (ascii_dec a c) as [->|Hne].
      * rewrite IH. split; intros [post Hp]; exists post.
        -- by rewrite app_cons, <- Hp.
        -- rewrite app_cons in Hp. by inversion Hp.
      * split; [discriminate|]. intros [post Hp].
        rewrite app_cons in Hp. inversion Hp. congruence.
Qed.

(** [isin] is the substring relation. *)
Lemma isin_spec sub s :
  isin sub s = true ↔ ∃ pre post, s = pre +:+ sub +:+ post.
Proof.
  induction s as [|c s IH].
  - cbn [isin]. rewrite orb_false_r, prefix_spec. split.
    + intros [post Hp]. by exists "", post.
    + intros [[|a pre] [post Hp]]; [by exists post | discriminate].
  - cbn [isin]. rewrite orb_true_iff, IH, prefix_spec. split.
    + intros [[post Hp]|(pre & post & Hp)].
      * by exists "", post.
      * exists (String c pre), post. by rewrite app_cons, <- Hp.
    + intros ([|a pre] & post & Hp).
      * left. by exists post.
      * right. rewrite app_cons in Hp. inversion Hp. by exists pre, post.
Qed.

Lemma substring_all s : substring 0 (String.length s) s = s.
Proof. induction s as [|a s IH]; [reflexivity|]. simpl. by rewrite IH. Qed.

(** [s[:n] + s[n:] == s]. *)
Lemma slice_to_from n s : slice_to n s +:+ slice_from n s = s.
Proof.
  unfold slice_to, slice_from. revert s.
  induction n as [|n IH]; intros s.
  - rewrite Nat.sub_0_r, substring_all. by destruct s.
  - destruct s as [|a s]; [reflexivity|].
    simpl. rewrite app_cons. f_equal. apply IH.
Qed.

Lemma length_slice_to n s :
  String.length (slice_to n s) = Nat.min n (String.length s).
Proof.
  unfold slice_to. revert s. induction n as [|n IH]; intros s.
  - by destruct s.
  - destruct s as [|a s]; [reflexivity|]. simpl. by rewrite IH.
Qed.

Lemma slice_to_app n s t :
  String.length s = n → slice_to n (s +:+ t) = s.
Proof.
  unfold slice_to. revert s. induction n as [|n IH]; intros [|a s] Hl; try discriminate.
  - by destruct t.
  - rewrite app_cons. simpl. f_equal. apply IH. by inversion Hl.
Qed.

Lemma slice_from_app n s t :
  String.length s = n → slice_from n (s +:+ t) = t.
Proof.
  intros Hl. pose proof (slice_to_from n (s +:+ t)) as H.
  rewrite (slice_to_app _ _ _ Hl) in H. by apply (inj (String.append s)) in H.
Qed.

(** ** EnclosureReader.process *)

Module ReaderSpec.
Import Reader.

Lemma elem_of_when {A} (b : bool) (l : list A) x : x ∈ when b l → x ∈ l.
Proof. destruct b; [done|]. by intros ?%elem_of_nil. Qed.

Lemma process_unmarked line :
  unmarked line = true → process line = [Emit (Msg line)].
Proof.
  unfold unmarked, markers. cbn [forallb]. rewrite !andb_true_iff, !negb_true_iff.
  intros (Hv & Hs & Hu & Hd & Hsd & Hrb & Hw & Hf & He & Hds & _).
  unfold process, pass_through, classify.
  by rewrite Hv, Hs, Hu, Hd, Hsd, Hrb, Hw, Hf, He, Hds.
Qed.

Lemma elem_of_when_inv {A} (b : bool) (l : list A) x :
  x ∈ when b l → b = true ∧ x ∈ l.
Proof. destruct b; [done|]. by intros ?%elem_of_nil. Qed.

(** The marker blocks publish the raw line itself only for the line
    ["mycroft.stop"], whose stop request has that very form. *)
Lemma raw_line_in_classify line :
  Emit (Msg line) ∈ classify line ↔ line = "mycroft.stop".
Proof.
  split.
  - unfold classify. rewrite !elem_of_app.
    intros [H|[H|[H|[H|[H|[H|[H|[H|[H|H]]]]]]]]];
      apply elem_of_when_inv in H as [Hb H];
      apply list_elem_of_In in H; simpl in H;
      repeat (destruct H as [H|H]); try done;
      unfold Msg, eyes_gray, play_sound in H;
      injection H; intros; subst; try reflexivity;
      first [ by vm_compute in Hb
            | match goal with
              | Hd : _ = ∅ |- _ => by vm_compute in Hd
              | Hd : ∅ = _ |- _ => by vm_compute in Hd
              end ].
  - intros ->. apply (bool_decide_unpack _). by vm_compute.
Qed.

(** C2, as stated, fails: the line ["volume.up"] contains a marker and is
    still published verbatim, ahead of the volume notification. *)
Lemma process_passes_marked_line :
  ¬ (Emit (Msg "volume.up") ∈ process "volume.up" ↔ unmarked "volume.up" = true).
Proof.
  intros [H _].
  assert (Emit (Msg "volume.up") ∈ process "volume.up") as Hin
    by (apply (bool_decide_unpack _); by vm_compute).
  specialize (H Hin). vm_compute in H. discriminate.
Qed.

(** C2 (amended): an event carrying the raw line verbatim is published if
    and only if the line does not contain ["mycroft.stop"] or is exactly
    ["mycroft.stop"] (whose stop request is that event).  A line without
    ["mycroft.stop"] is published exactly once, as the first event, ahead of
    whatever its other markers trigger; a line that contains ["mycroft.stop"]
    and more is not published; and a line with no marker at all yields
    exactly the one pass-through event and nothing else. *)
Theorem process_pass_through line :
  (Emit (Msg line) ∈ process line ↔
     isin "mycroft.stop" line = false ∨ line = "mycroft.stop") ∧
  (isin "mycroft.stop" line = false →
     ∃ rest, process line = Emit (Msg line) :: rest ∧ Emit (Msg line) ∉ rest) ∧
  (isin "mycroft.stop" line = true → line ≠ "mycroft.stop" →
     Emit (Msg line) ∉ process line) ∧
  (line = "mycroft.stop" → process line = [Emit (Msg line)]) ∧
  (unmarked line = true → process line = [Emit (Msg line)]).
Proof.
  assert (isin "mycroft.stop" line = false → Emit (Msg line) ∉ classify line)
    as Hfresh.
  { intros Hs Hin. apply raw_line_in_classify in Hin. subst line.
    by vm_compute in Hs. }
  assert (isin "mycroft.stop" line = true → process line = classify line)
    as Hstop.
  { intros Hs. unfold process, pass_through. by rewrite Hs. }
  assert (isin "mycroft.stop" line = false →
          process line = Emit (Msg line) :: classify line) as Hpass.
  { intros Hs. unfold process, pass_through. by rewrite Hs. }
  split; [|split; [|split; [|split]]].
  - destruct (isin "mycroft.stop" line) eqn:Hs.
    + rewrite Hstop, raw_line_in_classify by done.
      split; [by right | by intros [?|?]].
    + rewrite Hpass by done. split; [auto|]. intros _. apply elem_of_cons. by left.
  - intros Hs. exists (classify line). split; [by apply Hpass|by apply Hfresh].
  - intros Hs Hne. rewrite Hstop by done. by rewrite raw_line_in_classify.
  - by intros ->.
  - apply process_unmarked.
Qed.

Lemma process_pass_through_witness :
  unmarked "encoder.left" = true ∧
  process "encoder.left" = [Emit (Msg "encoder.left")].
Proof.
  split; [reflexivity|].
  apply (process_pass_through "encoder.left"). reflexivity.
Defined.

(** C3: a line containing ["unit.shutdown"] publishes, in this order, the
    eyes-colour notification (70, 65, 69), the timed spin of 12000 ms and
    the mouth reset, then sleeps 500 ms, then publishes the system
    shutdown; no shutdown notification is published before that sleep. *)
Theorem process_unit_shutdown line :
  isin "unit.shutdown" line = true →
  ∃ before after,
    process line =
      before ++
      [ Emit (mkMessage "enclosure.eyes.color"
               (<["r" := PyInt 70]> (<["g" := PyInt 65]> (<["b" := PyInt 69]> ∅))));
        Emit (mkMessage "enclosure.eyes.timedspin" (<["length" := PyInt 12000]> ∅));
        Emit (Msg "enclosure.mouth.reset");
        Sleep 500;
        Emit (Msg "system.shutdown") ] ++
      after ∧
    Emit (Msg "system.shutdown") ∉ before.
Proof.
  intros Hsd.
  exists (pass_through line ++
          when (isin "Command: system.version" line) on_version ++
          when (isin "mycroft.stop" line) on_stop ++
          when (isin "volume.up" line) on_volume_up ++
          when (isin "volume.down" line) on_volume_down).
  eexists. split.
  - unfold process, classify. rewrite Hsd. cbn [when].
    rewrite <- !(assoc_L (++)). reflexivity.
  - rewrite !elem_of_app.
    intros [H|[H|[H|[H|H]]]]; apply elem_of_when in H;
      apply list_elem_of_In in H; simpl in H;
      destruct H as [H|[]]; try discriminate.
    injection H as ->. vm_compute in Hsd. discriminate.
Qed.

Lemma process_unit_shutdown_witness :
  ∃ before after,
    process "unit.shutdown" =
      before ++
      [ Emit (mkMessage "enclosure.eyes.color"
               (<["r" := PyInt 70]> (<["g" := PyInt 65]> (<["b" := PyInt 69]> ∅))));
        Emit (mkMessage "enclosure.eyes.timedspin" (<["length" := PyInt 12000]> ∅));
        Emit (Msg "enclosure.mouth.reset");
        Sleep 500;
        Emit (Msg "system.shutdown") ] ++
      after ∧
    Emit (Msg "system.shutdown") ∉ before.
Proof. apply (process_unit_shutdown "unit.shutdown"). reflexivity. Defined.

End ReaderSpec.

(** ** EnclosureReader.read *)

Module ReadLoopSpec.
Import Reader.

Lemma strip_app_two (payload : list byte) b1 b2 :
  strip_terminator (payload ++ [b1; b2]) = payload.
Proof.
  unfold strip_terminator. rewrite length_app. simpl.
  replace (length payload + 2 - 2) with (length payload) by lia.
  apply take_app_length.
Qed.

Lemma length_strip (raw : list byte) :
  length (strip_terminator raw) = length raw - 2.
Proof. unfold strip_terminator. rewrite length_take. lia. Qed.

Lemma until_fault_none acts : until_fault None acts = (acts, false).
Proof.
  induction acts as [|a acts IH]; [reflexivity|].
  destruct a; simpl; by rewrite IH.
Qed.

Lemma read_cons ds dr ev evs st :
  read ds dr (ev :: evs) st = read ds dr evs (step ds dr st ev).
Proof. reflexivity. Qed.

Section Codec.

Variable decode_strict : list byte → option string.
Variable decode_replace : list byte → string.

Local Abbreviation handle := (handle decode_strict decode_replace).
Local Abbreviation read_iter := (read_iter decode_strict decode_replace).
Local Abbreviation step := (step decode_strict decode_replace).
Local Abbreviation read := (read decode_strict decode_replace).

Lemma handle_undecodable data :
  data ≠ [] → decode_strict data = None →
  handle data = LogWarning :: process (decode_replace data).
Proof.
  intros Hne Hd. unfold Reader.handle, decode. rewrite Hd.
  by destruct data.
Qed.

Lemma handle_decodable data s :
  data ≠ [] → decode_strict data = Some s → handle data = process s.
Proof.
  intros Hne Hd. unfold Reader.handle, decode. rewrite Hd.
  by destruct data.
Qed.

Lemma read_iter_no_fault raw :
  read_iter (Line raw) None = handle (strip_terminator raw).
Proof.
  unfold Reader.read_iter. rewrite until_fault_none. simpl.
  apply app_nil_r.
Qed.

Lemma step_running st r fault :
  alive st = true → exited st = false →
  step st (Iteration r fault) = mkReader true false (log st ++ read_iter r fault).
Proof. intros Ha He. simpl. by rewrite He, Ha. Qed.

Lemma read_exits_on_stop evs : ∀ st,
  alive st = true → exited st = false →
  exited (read evs st) = true → Stop ∈ evs.
Proof.
  induction evs as [|ev evs IH]; intros st Ha He Hx.
  - simpl in Hx. congruence.
  - rewrite read_cons in Hx. destruct ev as [|r fault].
    + apply elem_of_cons. by left.
    + apply elem_of_cons. right. rewrite step_running in Hx by done.
      by apply IH in Hx.
Qed.

(** C6: undecodable bytes do not discard the line: it is decoded with
    replacement, a warning is logged and the line is processed; an exception
    raised by the read or while the line is processed is caught and logged;
    the iteration leaves the loop running, so that the next well-formed line
    is read and processed; and the loop is left only after [stop()]. *)
Theorem read_survives_bad_lines :
  (∀ raw, strip_terminator raw ≠ [] →
          decode_strict (strip_terminator raw) = None →
          read_iter (Line raw) None =
            LogWarning :: process (decode_replace (strip_terminator raw))) ∧
  (∀ fault, read_iter ReadError fault = [LogError]) ∧
  (∀ raw fault made,
      until_fault fault (handle (strip_terminator raw)) = (made, true) →
      read_iter (Line raw) fault = made ++ [LogError]) ∧
  (∀ st r fault,
      alive st = true → exited st = false →
      alive (step st (Iteration r fault)) = true ∧
      exited (step st (Iteration r fault)) = false ∧
      log (step st (Iteration r fault)) = log st ++ read_iter r fault) ∧
  (∀ st r fault raw s,
      alive st = true → exited st = false →
      strip_terminator raw ≠ [] →
      decode_strict (strip_terminator raw) = Some s →
      log (read [Iteration r fault; Iteration (Line raw) None] st) =
        log st ++ read_iter r fault ++ process s) ∧
  (∀ evs, exited (read evs init) = true → Stop ∈ evs).
Proof.
  repeat split.
  - intros raw Hne Hd. rewrite read_iter_no_fault. by apply handle_undecodable.
  - intros raw fault made Hu. unfold Reader.read_iter. by rewrite Hu.
  - by rewrite step_running.
  - by rewrite step_running.
  - by rewrite step_running.
  - intros st r fault raw s Ha He Hne Hd.
    rewrite read_cons, step_running by done.
    rewrite read_cons, step_running by done.
    unfold Reader.read. cbn [fold_left log].
    rewrite read_iter_no_fault, (handle_decodable _ s) by done.
    by rewrite (assoc_L (++)).
  - intros evs. by apply read_exits_on_stop.
Qed.

End Codec.

(** An undecodable line, then a failing read, then a well-formed line. *)
Lemma read_survives_bad_lines_witness :
  log (read ascii_strict ascii_replace
         [ Iteration (Line [x76; xff; x0d; x0a]) None;
           Iteration ReadError None;
           Iteration (Line [x68; x69; x0d; x0a]) None ] init) =
    [ LogWarning; Emit (Msg "v?"); LogError; Emit (Msg "hi") ].
Proof.
  pose proof (read_survives_bad_lines ascii_strict ascii_replace)
    as (Hrepl & Herr & _ & _ & Hnext & _).
  rewrite read_cons, step_running by reflexivity.
  rewrite (Hnext _ ReadError None [x68; x69; x0d; x0a] "hi");
    [| reflexivity | reflexivity | discriminate | reflexivity ].
  rewrite Herr.
  rewrite (Hrepl [x76; xff; x0d; x0a]); [reflexivity | discriminate | reflexivity].
Defined.

(** C9: the reader drops the last two bytes of every raw read, whatever
    they are, and decodes and classifies what is left: with CR+LF that is the
    payload; with LF alone the last payload byte goes with it, and with no
    terminator the last two payload bytes go. *)
Theorem read_strips_last_two_bytes :
  (∀ raw : list byte,
      strip_terminator raw = take (length raw - 2) raw ∧
      length (strip_terminator raw) = length raw - 2) ∧
  (∀ (payload : list byte) b1 b2, strip_terminator (payload ++ [b1; b2]) = payload) ∧
  (∀ payload : list byte, strip_terminator (payload ++ [x0d; x0a]) = payload) ∧
  (∀ (payload : list byte) b, strip_terminator ((payload ++ [b]) ++ [x0a]) = payload) ∧
  (∀ ds dr (payload : list byte) b1 b2,
      read_iter ds dr (Line (payload ++ [b1; b2])) None = handle ds dr payload).
Proof.
  repeat split.
  - apply length_strip.
  - apply strip_app_two.
  - intros payload. apply strip_app_two.
  - intros payload b. rewrite <- (assoc_L (++)). apply strip_app_two.
  - intros ds dr payload b1 b2.
    by rewrite read_iter_no_fault, strip_app_two.
Qed.

(** The marker of an LF-terminated line loses its last character and is
    not recognised. *)
Example read_lf_only_line :
  read_iter ascii_strict ascii_replace
            (Line (list_byte_of_string "volume.up" ++ [x0a])) None =
    [Emit (Msg "volume.u")].
Proof. vm_compute. reflexivity. Qed.

End ReadLoopSpec.

(** ** EnclosureWriter *)

Module WriterSpec.
Import Writer.

Lemma full_16 q :
  maxsize q = default_size → full q = true ↔ 16 ≤ length (items q).
Proof.
  intros Hm. unfold full. rewrite Hm. unfold default_size. simpl.
  rewrite Z.leb_le. lia.
Qed.

Lemma write_full c w : full (commands w) = true → write c w = None.
Proof. intros Hf. unfold write, put. by rewrite Hf. Qed.

Lemma write_room c w :
  full (commands w) = false →
  write c w =
    Some (mkWriter (alive w)
            (mkQueue (maxsize (commands w)) (items (commands w) ++ [c])
                     (unfinished_tasks (commands w) + 1))
            (at_pc w) (log w)).
Proof. intros Hf. unfold write, put. by rewrite Hf. Qed.


(** What one pass of the loop body does to a queue that holds [item]. *)
Lemma dequeue_cons ok w item rest :
  items (commands w) = item :: rest →
  ∃ unf outcome,
    dequeue ok w =
      mkWriter (alive w) (mkQueue (maxsize (commands w)) rest unf) AtLoopTest
               (log w ++ [SerialWrite (framed item); outcome]) ∧
    (outcome = TaskDone ∨ outcome = LogError) ∧
    (ok = false → outcome = LogError ∧ unf = unfinished_tasks (commands w)).
Proof.
  intros Hi. unfold dequeue, get. rewrite Hi. unfold transmit, task_done. simpl.
  destruct ok; [destruct (unfinished_tasks (commands w) <=? 0)%Z|];
    simpl; eexists _, _; (split; [reflexivity|]); split; auto; discriminate.
Qed.




Lemma run_snoc evs ev s : run (evs ++ [ev]) s = step (run evs s) ev.
Proof. unfold run. by rewrite fold_left_app. Qed.







(** Commands ["a"], ["b"], ["c"] from one producer reach the link in that
    order. *)
Example flush_a_b_c :
  handed (log (the_writer
    (run [CallWrite "a"; CallWrite "b"; CallWrite "c";
          Flush true; Flush true; Flush true] start))) =
    [framed "a"; framed "b"; framed "c"].
Proof. reflexivity. Qed.

(** A failing write is logged and the loop goes on with the next
    command. *)
Lemma flush_failure_continues w item rest :
  alive w = true → at_pc w ≠ Exited →
  items (commands w) = item :: rest →
  flush false w =
    mkWriter true (mkQueue (maxsize (commands w)) rest (unfinished_tasks (commands w)))
             AtLoopTest (log w ++ [SerialWrite (framed item); LogError]).
Proof.
  intros Ha Hpc Hi.
  destruct (dequeue_cons false w item rest Hi) as (unf & out & Hdq & _ & Hout).
  destruct Hout as [-> ->]; [done|].
  rewrite Ha in Hdq. rewrite <- Hdq.
  unfold flush. rewrite Ha. by destruct (at_pc w).
Qed.

(** C5: with ["a"] and ["b"] queued and the write of ["a"] failing, the
    failure is logged and the loop goes on to transmit ["b"]; but the
    command whose write failed is never acknowledged: [task_done] runs once
    for two dequeued commands and one task stays unfinished. *)
Theorem flush_skips_task_done_on_failure :
  let w := the_writer (run [CallWrite "a"; CallWrite "b"; Flush false; Flush true] start) in
  log w = [SerialWrite (framed "a"); LogError; SerialWrite (framed "b"); TaskDone] ∧
  length (handed (log w)) = 2 ∧
  acknowledged (log w) = 1 ∧
  unfinished_tasks (commands w) = 1%Z ∧
  items (commands w) = [] ∧
  alive w = true ∧ at_pc w = AtLoopTest.
Proof. repeat split. Qed.

End WriterSpec.

(** ** MycroftMark1 *)

Module Mark1Spec.
Import Mark1.

Lemma bind_ok {A B} (m : result A) (f : A → result B) b :
  m ≫= f = Ok b → ∃ a, m = Ok a ∧ f a = Ok b.
Proof. destruct m as [a|e]; [by exists a | discriminate]. Qed.

Lemma truthy_lookup t (d : gmap string pyval) k v :
  d !! k = Some v → truthy_data (Some (mkMessage t d)) = Some d.
Proof.
  intros Hk. unfold truthy_data. simpl. case_bool_decide as He; [|done].
  rewrite He, lookup_empty in Hk. discriminate.
Qed.

(** *** The icon command *)

Lemma icon_command_prefix message cmd :
  icon_command message = Ok cmd → ∃ rest, cmd = "mouth.icon=" +:+ rest.
Proof.
  unfold icon_command. intros ([[[code x] y] cp] & _ & Hadd)%bind_ok.
  unfold str_add in Hadd. destruct code; try discriminate.
  injection Hadd as <-. rewrite app_assoc_str. by eexists.
Qed.

Lemma send_icon_long cmd :
  60 < String.length cmd →
  send_icon cmd =
    [ Write (slice_to 31 cmd +:+ "$"); Sleep 250;
      Write ("mouth.icon=$" +:+ slice_from 31 cmd) ].
Proof.
  intros Hl. unfold send_icon.
  by destruct (Nat.ltb_spec 60 (String.length cmd)); [|lia].
Qed.

Lemma send_icon_short cmd :
  String.length cmd ≤ 60 → send_icon cmd = [Sleep 100; Write cmd].
Proof.
  intros Hl. unfold send_icon.
  by destruct (Nat.ltb_spec 60 (String.length cmd)); [lia|].
Qed.

(** C1: for the formatted icon command (it starts with ["mouth.icon="]),
    [on_display] enqueues two fragments exactly when the command is longer
    than 60 characters: its first 31 characters followed by ["$"] (32
    characters), then ["mouth.icon=$"] followed by the characters from
    offset 31 on; the first fragment without its last character followed by
    the second without its 12-character prefix is the command again.  A
    command of at most 60 characters is enqueued whole, as one fragment. *)
Theorem on_display_chunking message cmd :
  icon_command message = Ok cmd →
  String.prefix "mouth.icon=" cmd = true ∧
  ∃ acts,
    on_display message = Ok acts ∧
    (length (writes acts) = 2 ↔ 60 < String.length cmd) ∧
    (60 < String.length cmd →
       let fragment1 := slice_to 31 cmd +:+ "$" in
       let fragment2 := "mouth.icon=$" +:+ slice_from 31 cmd in
       acts = [Write fragment1; Sleep 250; Write fragment2] ∧
       writes acts = [fragment1; fragment2] ∧
       String.length fragment1 = 32 ∧
       slice_from 31 fragment1 = "$" ∧
       slice_to 12 fragment2 = "mouth.icon=$" ∧
       slice_to (String.length fragment1 - 1) fragment1 +:+ slice_from 12 fragment2 = cmd) ∧
    (String.length cmd ≤ 60 → acts = [Sleep 100; Write cmd] ∧ writes acts = [cmd]).
Proof.
  intros Hcmd. split.
  { apply prefix_spec. by apply icon_command_prefix in Hcmd. }
  exists (send_icon cmd). split; [unfold on_display; by rewrite Hcmd|].
  split; [|split].
  - destruct (Nat.lt_ge_cases 60 (String.length cmd)) as [Hl|Hl].
    + rewrite send_icon_long by done. by split.
    + rewrite send_icon_short by done. simpl. split; [discriminate | lia].
  - intros Hl fragment1 fragment2. rewrite send_icon_long by done.
    assert (String.length (slice_to 31 cmd) = 31) as H31.
    { rewrite length_slice_to. lia. }
    assert (String.length fragment1 = 32) as H32.
    { unfold fragment1. rewrite length_app_str, H31. reflexivity. }
    repeat split; try done.
    + unfold fragment1. by apply slice_from_app.
    + unfold fragment2. by apply slice_to_app.
    + rewrite H32. simpl Nat.sub. unfold fragment1, fragment2.
      rewrite slice_to_app by done. rewrite slice_from_app by done.
      apply slice_to_from.
  - intros Hl. by rewrite send_icon_short.
Qed.

Lemma on_display_chunking_witness :
  let message :=
    Some (mkMessage "enclosure.mouth.display"
            (<["img_code" := PyStr "aIMAMAMPMPMPIAAAAAMEMBGOHAHAGOMBMEAAAAIAMPMPMPMAMAAAAA"]>
               (<["xOffset" := PyInt 4]> (<["yOffset" := PyInt 0]>
                  (<["clearPrev" := PyBool true]> ∅))))) in
  on_display message =
    Ok [ Write "mouth.icon=x=4,y=0,cP=1,aIMAMAM$"; Sleep 250;
         Write "mouth.icon=$PMPMPIAAAAAMEMBGOHAHAGOMBMEAAAAIAMPMPMPMAMAAAAA" ].
Proof.
  intros message.
  destruct (on_display_chunking message
    "mouth.icon=x=4,y=0,cP=1,aIMAMAMPMPMPIAAAAAMEMBGOHAHAGOMBMEAAAAIAMPMPMPMAMAAAAA")
    as (_ & acts & -> & _ & Hlong & _); [by vm_compute|].
  destruct Hlong as [-> _]; [vm_compute; lia|]. by vm_compute.
Defined.

(** A command of exactly 60 characters is not split. *)
Example send_icon_60 :
  send_icon "mouth.icon=x=4,y=0,cP=1,aIMAMAMPMPMPIAAAAAMEMBGOHAHAGOMBMEAA" =
    [Sleep 100; Write "mouth.icon=x=4,y=0,cP=1,aIMAMAMPMPMPIAAAAAMEMBGOHAHAGOMBMEAA"].
Proof. reflexivity. Qed.

(** *** RGB packing *)

Lemma pack_rgb_bytes r g b :
  (0 ≤ r ≤ 255 → 0 ≤ g ≤ 255 → 0 ≤ b ≤ 255 →
   0 ≤ pack_rgb r g b < 2 ^ 24 ∧
   Z.shiftr (pack_rgb r g b) 16 = r ∧
   Z.land (Z.shiftr (pack_rgb r g b) 8) 255 = g ∧
   Z.land (pack_rgb r g b) 255 = b)%Z.
Proof.
  intros Hr Hg Hb. unfold pack_rgb.
  change 255%Z with (Z.ones 8). rewrite !Z.land_ones, !Z.shiftr_div_pow2 by lia.
  change (2 ^ 16)%Z with 65536%Z. change (2 ^ 8)%Z with 256%Z.
  change (2 ^ 24)%Z with 16777216%Z.
  split; [lia|]. split; [|split].
  - symmetry. apply (Z.div_unique _ _ _ (g * 256 + b)); lia.
  - replace ((r * 65536 + g * 256 + b) `div` 256)%Z with (r * 256 + g)%Z.
    + symmetry. apply (Z.mod_unique _ _ r); lia.
    + apply (Z.div_unique _ _ _ b); lia.
  - symmetry. apply (Z.mod_unique _ _ (r * 256 + g)); lia.
Qed.

Lemma on_eyes_color_ok message d r g b self :
  truthy_data message = Some d →
  py_int (dict_get d "r" (PyInt 255)) = Ok r →
  py_int (dict_get d "g" (PyInt 255)) = Ok g →
  py_int (dict_get d "b" (PyInt 255)) = Ok b →
  on_eyes_color message self =
    Ok (mkMk1 (_num_pixels self) (replicate (Z.to_nat (_num_pixels self)) (r, g, b)),
        [Write ("eyes.color=" +:+ str_of_int (r * 65536 + g * 256 + b))]).
Proof.
  intros Hd Hr Hg Hb. unfold on_eyes_color. by rewrite Hd, Hr, Hg, Hb.
Qed.

Lemma on_eyes_set_pixel_ok message d idx r g b self rgb :
  truthy_data message = Some d →
  py_int (dict_get d "idx" (PyInt 0)) = Ok idx →
  py_int (dict_get d "r" (PyInt 255)) = Ok r →
  py_int (dict_get d "g" (PyInt 255)) = Ok g →
  py_int (dict_get d "b" (PyInt 255)) = Ok b →
  list_setitem (_current_rgb self) idx (r, g, b) = Ok rgb →
  on_eyes_set_pixel message self =
    Ok (mkMk1 (_num_pixels self) rgb,
        [Write ("eyes.set=" +:+ str_of_int idx +:+ "," +:+
                str_of_int (r * 65536 + g * 256 + b))]).
Proof.
  intros Hd Hi Hr Hg Hb Hset. unfold on_eyes_set_pixel.
  rewrite Hd, Hi, Hr, Hg, Hb. simpl. by rewrite Hset.
Qed.

(** C7: for r, g, b in 0-255 the eye-colour and the pixel-set handlers
    send the single integer r*65536 + g*256 + b, which holds red in its most
    significant byte, green in the middle one and blue in the lowest;
    (255, 0, 0) is sent as 16711680 and (0, 255, 0) as 65280. *)
Theorem rgb_packing :
  (∀ r g b : Z,
      (0 ≤ r ≤ 255)%Z → (0 ≤ g ≤ 255)%Z → (0 ≤ b ≤ 255)%Z →
      pack_rgb r g b = (r * 65536 + g * 256 + b)%Z ∧
      (0 ≤ pack_rgb r g b < 2 ^ 24)%Z ∧
      Z.shiftr (pack_rgb r g b) 16 = r ∧
      Z.land (Z.shiftr (pack_rgb r g b) 8) 255 = g ∧
      Z.land (pack_rgb r g b) 255 = b ∧
      (∀ message d self,
          truthy_data message = Some d →
          py_int (dict_get d "r" (PyInt 255)) = Ok r →
          py_int (dict_get d "g" (PyInt 255)) = Ok g →
          py_int (dict_get d "b" (PyInt 255)) = Ok b →
          on_eyes_color message self =
            Ok (mkMk1 (_num_pixels self)
                      (replicate (Z.to_nat (_num_pixels self)) (r, g, b)),
                [Write ("eyes.color=" +:+ str_of_int (r * 65536 + g * 256 + b))])) ∧
      (∀ message d self idx,
          truthy_data message = Some d →
          py_int (dict_get d "idx" (PyInt 0)) = Ok idx →
          py_int (dict_get d "r" (PyInt 255)) = Ok r →
          py_int (dict_get d "g" (PyInt 255)) = Ok g →
          py_int (dict_get d "b" (PyInt 255)) = Ok b →
          (0 ≤ idx < Z.of_nat (length (_current_rgb self)))%Z →
          on_eyes_set_pixel message self =
            Ok (mkMk1 (_num_pixels self)
                      (<[Z.to_nat idx := (r, g, b)]> (_current_rgb self)),
                [Write ("eyes.set=" +:+ str_of_int idx +:+ "," +:+
                        str_of_int (r * 65536 + g * 256 + b))]))) ∧
  pack_rgb 255 0 0 = 16711680%Z ∧
  pack_rgb 0 255 0 = 65280%Z.
Proof.
  split; [|by split].
  intros r g b Hr Hg Hb.
  destruct (pack_rgb_bytes r g b Hr Hg Hb) as (H24 & Hred & Hgreen & Hblue).
  repeat split; try done; try lia.
  - intros message d self Hd Hdr Hdg Hdb.
    by apply (on_eyes_color_ok _ d).
  - intros message d self idx Hd Hi Hdr Hdg Hdb Hidx.
    apply (on_eyes_set_pixel_ok _ d); try done.
    unfold list_setitem.
    destruct (Z.leb_spec 0 idx), (Z.ltb_spec idx (Z.of_nat (length (_current_rgb self))));
      (done || lia).
Qed.

Lemma rgb_packing_witness :
  on_eyes_color
    (Some (mkMessage "enclosure.eyes.color"
             (<["r" := PyInt 255]> (<["g" := PyInt 0]> (<["b" := PyInt 0]> ∅)))))
    (fst init) =
  Ok (mkMk1 24 (replicate 24 (255, 0, 0)%Z), [Write "eyes.color=16711680"]).
Proof.
  destruct rgb_packing as [H _].
  destruct (H 255 0 0)%Z as (_ & _ & _ & _ & _ & Hcolor & _); [lia..|].
  rewrite (Hcolor _ (<["r" := PyInt 255]> (<["g" := PyInt 0]> (<["b" := PyInt 0]> ∅))));
    by vm_compute.
Defined.

(** *** Percent to fill level *)

Lemma round_half_even_nearest n a :
  a = Float64.round_half_even n 100 → (-50 ≤ 100 * a - n ≤ 50)%Z.
Proof.
  intros ->. unfold Float64.round_half_even.
  pose proof (Z.div_mod n 100 ltac:(lia)) as Hdm.
  pose proof (Z.mod_pos_bound n 100 ltac:(lia)) as Hb.
  destruct (Z.compare_spec (2 * (n `mod` 100)) 100) as [He|Hlt|Hgt];
    [destruct (Z.even (n `div` 100))|..]; lia.
Qed.

(** The float computation of [fill_amount], run on every percentage. *)
Lemma fill_amount_table :
  forallb (λ p, match fill_amount p with
                | Ok a => (a =? Float64.round_half_even (23 * p) 100)%Z &&
                          (a =? (23 * p + 50) `div` 100)%Z
                | Raise _ => false
                end)
          (Z.of_nat <$> seq 0 101) = true.
Proof. vm_compute. reflexivity. Qed.

Lemma fill_amount_percent p :
  (0 ≤ p ≤ 100)%Z →
  fill_amount p = Ok (Float64.round_half_even (23 * p) 100) ∧
  Float64.round_half_even (23 * p) 100 = ((23 * p + 50) `div` 100)%Z.
Proof.
  intros Hp. pose proof fill_amount_table as Ht.
  rewrite forallb_forall in Ht. specialize (Ht p).
  destruct (fill_amount p) as [a|e].
  - apply andb_prop in Ht as [H1%Z.eqb_eq H2%Z.eqb_eq]; [by subst|].
    apply in_map_iff. exists (Z.to_nat p). split; [lia|]. apply in_seq. lia.
  - discriminate Ht.
    apply in_map_iff. exists (Z.to_nat p). split; [lia|]. apply in_seq. lia.
Qed.

(** C8: a percentage p (0 to 100) is rescaled to [round(23 * p / 100)],
    the integer nearest to 23p/100, which lies in 0..23, and that is the
    level sent in the ["eyes.fill="] command; 0 gives 0, 100 gives 23 and
    50 gives 12. *)
Theorem eyes_fill_scaling :
  (∀ p : Z,
      (0 ≤ p ≤ 100)%Z →
      ∃ amount,
        fill_amount p = Ok amount ∧
        amount = Float64.round_half_even (23 * p) 100 ∧
        amount = ((23 * p + 50) `div` 100)%Z ∧
        (-50 ≤ 100 * amount - 23 * p ≤ 50)%Z ∧
        (0 ≤ amount ≤ 23)%Z ∧
        (∀ message d,
            truthy_data message = Some d →
            py_int (dict_get d "percentage" (PyInt 0)) = Ok p →
            on_eyes_fill message = Ok [Write ("eyes.fill=" +:+ str_of_int amount)])) ∧
  fill_amount 0 = Ok 0%Z ∧
  fill_amount 100 = Ok 23%Z ∧
  fill_amount 50 = Ok 12%Z.
Proof.
  split; [|by vm_compute].
  intros p Hp. destruct (fill_amount_percent p Hp) as [Hfill Hdiv].
  exists (Float64.round_half_even (23 * p) 100).
  pose proof (round_half_even_nearest (23 * p) _ eq_refl) as Hnear.
  repeat split; try done; try lia.
  intros message d Hd Hpc. unfold on_eyes_fill. rewrite Hd, Hpc.
  cbn -[fill_amount]. by rewrite Hfill.
Qed.

Lemma eyes_fill_scaling_witness :
  on_eyes_fill (Some (mkMessage "enclosure.eyes.fill" (<["percentage" := PyInt 50]> ∅))) =
    Ok [Write "eyes.fill=12"].
Proof.
  destruct eyes_fill_scaling as [H _].
  destruct (H 50%Z) as (amount & Hfill & _ & _ & _ & _ & Hsend); [lia|].
  rewrite (Hsend _ (<["percentage" := PyInt 50]> ∅)); [|by vm_compute..].
  vm_compute in Hfill. by injection Hfill as <-.
Defined.

(** Outside 0..100 the same rounding applies; a tie goes to the even
    neighbour: 150 gives 34 (of 34.5), 250 gives 58 (of 57.5). *)
Lemma fill_amount_wide p :
  (-1000 ≤ p ≤ 1000)%Z →
  fill_amount p = Ok (Float64.round_half_even (23 * p) 100).
Proof.
  intros Hp.
  assert (forallb (λ p, match fill_amount p with
                        | Ok a => (a =? Float64.round_half_even (23 * p) 100)%Z
                        | Raise _ => false
                        end)
                  ((λ n, Z.of_nat n - 1000)%Z <$> seq 0 2001) = true) as Ht
    by (vm_compute; reflexivity).
  rewrite forallb_forall in Ht. specialize (Ht p).
  assert (In p ((λ n, Z.of_nat n - 1000)%Z <$> seq 0 2001)) as Hin.
  { apply in_map_iff. exists (Z.to_nat (p + 1000)). split; [lia|]. apply in_seq. lia. }
  destruct (fill_amount p) as [a|e]; [|by discriminate Ht].
  by apply Ht, Z.eqb_eq in Hin as ->.
Qed.

Example fill_amount_ties :
  fill_amount 150 = Ok 34%Z ∧ fill_amount 250 = Ok 58%Z.
Proof. by vm_compute. Qed.

(** Without a message, or with an empty one, the level sent is 0. *)
Example on_eyes_fill_default : on_eyes_fill None = Ok [Write "eyes.fill=0"].
Proof. reflexivity. Qed.

(** *** The eye-colour snapshot *)

Lemma list_setitem_length {A} (l l' : list A) idx v :
  list_setitem l idx v = Ok l' → length l' = length l.
Proof.
  unfold list_setitem. intros H.
  repeat case_match; simplify_eq; by rewrite length_insert.
Qed.

Lemma list_setitem_in_range {A} (l : list A) idx v :
  (0 ≤ idx < Z.of_nat (length l))%Z →
  list_setitem l idx v = Ok (<[Z.to_nat idx := v]> l).
Proof.
  intros Hi. unfold list_setitem.
  destruct (Z.leb_spec 0 idx), (Z.ltb_spec idx (Z.of_nat (length l))); (done || lia).
Qed.

Lemma handle_call_inv self c :
  _num_pixels self = 24%Z → length (_current_rgb self) = 24 →
  _num_pixels (handle_call self c) = 24%Z ∧
  length (_current_rgb (handle_call self c)) = 24.
Proof.
  intros Hn Hl. destruct c as [m|m|m]; simpl; [| |done].
  - destruct (on_eyes_color m self) as [[self' acts]|e] eqn:Hc; [|done].
    unfold on_eyes_color in Hc.
    apply bind_ok in Hc as ([[r g] b] & _ & Hc). simplify_eq. simpl.
    rewrite length_replicate, Hn. by split.
  - destruct (on_eyes_set_pixel m self) as [[self' acts]|e] eqn:Hc; [|done].
    unfold on_eyes_set_pixel in Hc.
    apply bind_ok in Hc as ([[[idx r] g] b] & _ & Hc).
    apply bind_ok in Hc as (rgb & Hset & Hc). simplify_eq. simpl.
    apply list_setitem_length in Hset. split; [done|congruence].
Qed.

Lemma handle_calls_inv calls : ∀ self,
  _num_pixels self = 24%Z → length (_current_rgb self) = 24 →
  _num_pixels (foldl handle_call self calls) = 24%Z ∧
  length (_current_rgb (foldl handle_call self calls)) = 24.
Proof.
  induction calls as [|c calls IH]; intros self Hn Hl; [done|].
  simpl. destruct (handle_call_inv self c Hn Hl). by apply IH.
Qed.

(** C10: the snapshot starts as 24 copies of (255, 255, 255) and has 24
    entries after any sequence of handler calls; [on_eyes_color] replaces
    every entry with the given (r, g, b); [on_eyes_set_pixel] with
    0 <= idx < 24 changes entry idx only; [handle_get_color] publishes the
    snapshot as it is and leaves it unchanged. *)
Theorem eye_snapshot_24 :
  _current_rgb (fst init) = replicate 24 (255, 255, 255)%Z ∧
  (∀ calls,
      length (_current_rgb (foldl handle_call (fst init) calls)) = 24) ∧
  (∀ message d r g b self,
      _num_pixels self = 24%Z →
      truthy_data message = Some d →
      py_int (dict_get d "r" (PyInt 255)) = Ok r →
      py_int (dict_get d "g" (PyInt 255)) = Ok g →
      py_int (dict_get d "b" (PyInt 255)) = Ok b →
      ∃ acts, on_eyes_color message self =
                Ok (mkMk1 24 (replicate 24 (r, g, b)), acts)) ∧
  (∀ message d idx r g b self,
      length (_current_rgb self) = 24 →
      truthy_data message = Some d →
      py_int (dict_get d "idx" (PyInt 0)) = Ok idx →
      py_int (dict_get d "r" (PyInt 255)) = Ok r →
      py_int (dict_get d "g" (PyInt 255)) = Ok g →
      py_int (dict_get d "b" (PyInt 255)) = Ok b →
      (0 ≤ idx < 24)%Z →
      ∃ rgb acts,
        on_eyes_set_pixel message self = Ok (mkMk1 (_num_pixels self) rgb, acts) ∧
        length rgb = 24 ∧
        rgb !! Z.to_nat idx = Some (r, g, b) ∧
        ∀ j, j ≠ Z.to_nat idx → rgb !! j = _current_rgb self !! j) ∧
  (∀ message self,
      handle_get_color message self =
        (self, [Emit (mkMessage "enclosure.eyes.rgb"
                        (<["pixels" := PyRGBList (_current_rgb self)]> ∅))])).
Proof.
  split; [reflexivity|]. split; [|split; [|split; [|reflexivity]]].
  - intros calls. by apply handle_calls_inv.
  - intros message d r g b self Hn Hd Hr Hg Hb.
    eexists. rewrite (on_eyes_color_ok _ d r g b) by done. by rewrite Hn.
  - intros message d idx r g b self Hl Hd Hi Hr Hg Hb Hidx.
    exists (<[Z.to_nat idx := (r, g, b)]> (_current_rgb self)). eexists.
    split; [|split; [|split]].
    + apply (on_eyes_set_pixel_ok _ d); try done.
      apply list_setitem_in_range. lia.
    + by rewrite length_insert.
    + apply list_lookup_insert_eq. lia.
    + intros j Hj. by apply list_lookup_insert_ne.
Qed.

Lemma eye_snapshot_24_witness :
  ∃ rgb acts,
    on_eyes_set_pixel
      (Some (mkMessage "enclosure.eyes.setpixel"
               (<["idx" := PyInt 3]> (<["r" := PyInt 1]> (<["g" := PyInt 2]>
                  (<["b" := PyInt 3]> ∅))))))
      (fst init) = Ok (mkMk1 24 rgb, acts) ∧
    length rgb = 24 ∧
    rgb !! 3 = Some (1, 2, 3)%Z ∧
    ∀ j, j ≠ 3 → rgb !! j = replicate 24 (255, 255, 255)%Z !! j.
Proof.
  destruct eye_snapshot_24 as (_ & _ & _ & Hset & _).
  apply (Hset _ (<["idx" := PyInt 3]> (<["r" := PyInt 1]> (<["g" := PyInt 2]>
                   (<["b" := PyInt 3]> ∅)))) 3%Z 1%Z 2%Z 3%Z (fst init));
    (by vm_compute) || lia.
Defined.

End Mark1Spec.

(** * Further properties *)

(** ** EnclosureReader.process, the other markers *)

Module ProcessSpec.
Import Reader.

Lemma elem_of_when_iff {A} (b : bool) (l : list A) x :
  x ∈ when b l ↔ b = true ∧ x ∈ l.
Proof.
  destruct b; simpl.
  - naive_solver.
  - split; [by intros ?%elem_of_nil | by intros [? _]].
Qed.

Lemma slept_app l1 l2 :
  Trace.slept (l1 ++ l2) = (Trace.slept l1 + Trace.slept l2)%N.
Proof.
  induction l1 as [|a l1 IH]; [reflexivity|].
  simpl. rewrite IH. destruct a; lia.
Qed.

(** X1: a line containing ["unit.reboot"] publishes, in this order, the
    eyes-colour notification (70, 65, 69), the eye spin and the mouth reset,
    then sleeps 500 ms, then publishes the system reboot; no reboot
    notification is published before that sleep. *)
Theorem process_unit_reboot line :
  isin "unit.reboot" line = true →
  ∃ before after,
    process line =
      before ++
      [ Emit (mkMessage "enclosure.eyes.color"
               (<["r" := PyInt 70]> (<["g" := PyInt 65]> (<["b" := PyInt 69]> ∅))));
        Emit (Msg "enclosure.eyes.spin");
        Emit (Msg "enclosure.mouth.reset");
        Sleep 500;
        Emit (Msg "system.reboot") ] ++
      after ∧
    Emit (Msg "system.reboot") ∉ before.
Proof.
  intros Hrb.
  exists (pass_through line ++
          when (isin "Command: system.version" line) on_version ++
          when (isin "mycroft.stop" line) on_stop ++
          when (isin "volume.up" line) on_volume_up ++
          when (isin "volume.down" line) on_volume_down ++
          when (isin "unit.shutdown" line) on_shutdown).
  eexists. split.
  - unfold process, classify. rewrite Hrb. cbn [when].
    rewrite <- !(assoc_L (++)). reflexivity.
  - unfold pass_through. rewrite !elem_of_app, !elem_of_when_iff.
    intros [H|[H|[H|[H|[H|H]]]]]; destruct H as [_ H];
      apply list_elem_of_In in H; simpl in H;
      repeat (destruct H as [H|H]; try discriminate H); try done.
    inversion H; subst. vm_compute in Hrb. discriminate.
Qed.

Lemma process_unit_reboot_witness :
  ∃ before after,
    process "unit.reboot" =
      before ++
      [ Emit (mkMessage "enclosure.eyes.color"
               (<["r" := PyInt 70]> (<["g" := PyInt 65]> (<["b" := PyInt 69]> ∅))));
        Emit (Msg "enclosure.eyes.spin");
        Emit (Msg "enclosure.mouth.reset");
        Sleep 500;
        Emit (Msg "system.reboot") ] ++
      after ∧
    Emit (Msg "system.reboot") ∉ before.
Proof. apply (process_unit_reboot "unit.reboot"). reflexivity. Defined.

Lemma slept_when (b : bool) l :
  Trace.slept (when b l) = if b then Trace.slept l else 0%N.
Proof. by destruct b. Qed.

(** Membership of a given event in a block guarded by a marker test. *)
Ltac in_block H :=
  apply elem_of_when_iff in H as [? H];
  first [ exfalso; revert H; apply (bool_decide_unpack _); vm_compute; exact I
        | assumption ].

Ltac pick_block :=
  first [ split; [reflexivity | apply (bool_decide_unpack _); vm_compute; exact I]
        | left; split; [reflexivity | apply (bool_decide_unpack _); vm_compute; exact I]
        | right; pick_block ].

Ltac settle_membership :=
  unfold classify; rewrite !elem_of_app;
  split;
  [ intros H; repeat (destruct H as [H|H]; [in_block H|]); in_block H
  | intros Hb; rewrite !elem_of_when_iff, Hb; pick_block ].

(** X2: the marker tests publish each notification exactly when its marker
    occurs in the line, independently of the other markers. *)
Theorem classify_marker_iff line :
  (Emit (Msg "enclosure.started") ∈ classify line ↔
     isin "Command: system.version" line = true) ∧
  (Emit (Msg "mycroft.stop") ∈ classify line ↔ isin "mycroft.stop" line = true) ∧
  (Emit (mkMessage "mycroft.volume.increase" (<["play_sound" := PyBool true]> ∅))
     ∈ classify line ↔ isin "volume.up" line = true) ∧
  (Emit (mkMessage "mycroft.volume.decrease" (<["play_sound" := PyBool true]> ∅))
     ∈ classify line ↔ isin "volume.down" line = true) ∧
  (Emit (Msg "system.shutdown") ∈ classify line ↔ isin "unit.shutdown" line = true) ∧
  (Emit (Msg "system.reboot") ∈ classify line ↔ isin "unit.reboot" line = true) ∧
  (Emit (Msg "system.wifi.setup") ∈ classify line ↔ isin "unit.setwifi" line = true) ∧
  (Emit (Msg "system.factory.reset") ∈ classify line ↔
     isin "unit.factory-reset" line = true) ∧
  (Emit (Msg "system.ssh.enable") ∈ classify line ↔ isin "unit.enable-ssh" line = true) ∧
  (Emit (Msg "system.ssh.disable") ∈ classify line ↔ isin "unit.disable-ssh" line = true).
Proof.
  repeat split_and; settle_membership.
Qed.

(** X3: the reader thread is held up by [process] for 500 ms for each of
    the shutdown and reboot markers in the line, and not at all for a line
    with neither. *)
Theorem process_sleeps line :
  Trace.slept (process line) =
    ((if isin "unit.shutdown" line then 500 else 0) +
     (if isin "unit.reboot" line then 500 else 0))%N.
Proof.
  unfold process, pass_through, classify. rewrite !slept_app, !slept_when.
  cbn [Trace.slept foldr on_version on_stop on_volume_up on_volume_down
       on_shutdown on_reboot].
  assert (∀ b : bool, (if b then 0 else 0)%N = 0%N) as Hquiet by (by intros []).
  rewrite !Hquiet.
  by destruct (isin "unit.shutdown" line), (isin "unit.reboot" line).
Qed.

End ProcessSpec.

(** ** EnclosureReader.read: stop, short reads, failing bus *)

Module ReadLoopMore.
Import Reader.

Lemma until_fault_cut fault acts :
  ∀ made raised,
    until_fault fault acts = (made, raised) →
    made `prefix_of` acts ∧
    (raised = false → made = acts) ∧
    (raised = true → ∃ k, fault = Some k ∧ Trace.emits made = k ∧ k < Trace.emits acts).
Proof.
  revert fault. induction acts as [|a acts IH]; intros fault made raised Hu.
  - simpl in Hu. simplify_eq. split; [done|]. split; [done|discriminate].
  - assert (∀ fault' made' raised',
              until_fault fault' acts = (made', raised') →
              made = a :: made' → raised = raised' →
              a :: made' `prefix_of` a :: acts ∧
              (raised' = false → a :: made' = a :: acts)) as Hkeep.
    { intros fault' made' raised' Hu' _ _.
      destruct (IH _ _ _ Hu') as (Hp & Hall & _).
      split; [by apply prefix_cons|]. intros ?. f_equal. auto. }
    destruct a as [m|ms|c|t| | |]; simpl in Hu;
      try (destruct (until_fault fault acts) as [made' raised'] eqn:Hu';
           simplify_eq; destruct (Hkeep _ _ _ Hu' eq_refl eq_refl) as [Hp Hall];
           split; [done|]; split; [done|];
           intros Hr; destruct (IH _ _ _ Hu') as (_ & _ & Hk);
           destruct (Hk Hr) as (k & -> & Hm & Hlt); by exists k).
    destruct fault as [[|k]|].
    + simplify_eq. split; [apply prefix_nil|]. split; [discriminate|].
      intros _. exists 0. split; [done|]. split; [done|].
      unfold Trace.emits. simpl. lia.
    + destruct (until_fault (Some k) acts) as [made' raised'] eqn:Hu'.
      simplify_eq. destruct (Hkeep _ _ _ Hu' eq_refl eq_refl) as [Hp Hall].
      split; [done|]. split; [done|].
      intros Hr. destruct (IH _ _ _ Hu') as (_ & _ & Hk).
      destruct (Hk Hr) as (k' & ? & Hm & Hlt). simplify_eq.
      exists (S (Trace.emits made')). unfold Trace.emits in *. simpl in *.
      split; [done|]. split; [done|]. by apply (proj1 (Nat.succ_lt_mono _ _)).
    + destruct (until_fault None acts) as [made' raised'] eqn:Hu'.
      simplify_eq. destruct (Hkeep _ _ _ Hu' eq_refl eq_refl) as [Hp Hall].
      split; [done|]. split; [done|].
      intros Hr. destruct (IH _ _ _ Hu') as (_ & _ & Hk).
      by destruct (Hk Hr) as (k' & ? & _).
Qed.

Section Codec.

Variable decode_strict : list byte → option string.
Variable decode_replace : list byte → string.

Local Abbreviation handle := (handle decode_strict decode_replace).
Local Abbreviation read_iter := (read_iter decode_strict decode_replace).
Local Abbreviation step := (step decode_strict decode_replace).
Local Abbreviation read := (read decode_strict decode_replace).

Lemma read_stopped evs : ∀ st,
  alive st = false →
  log (read evs st) = log st ∧ alive (read evs st) = false.
Proof.
  induction evs as [|ev evs IH]; intros st Ha; [done|].
  change (read (ev :: evs) st) with (read evs (step st ev)).
  destruct ev as [|r fault]; simpl.
  - destruct (IH (stop st)) as [Hl Hal]; [done|]. by rewrite Hl, Hal.
  - rewrite Ha. destruct (exited st) eqn:He.
    + by apply IH.
    + destruct (IH (mkReader false true (log st))) as [Hl Hal]; [done|].
      by rewrite Hl, Hal.
Qed.

(** X4: [stop()] is final.  Every pass through the loop test that comes
    after it ends the thread: whatever arrives on the link from then on,
    nothing more is decoded, published or logged, and the flag is never set
    again.  (A pass already beyond its test when [stop()] is called counts as
    before it.) *)
Theorem read_silent_after_stop st evs :
  log (read (Stop :: evs) st) = log st ∧
  alive (read (Stop :: evs) st) = false ∧
  (∀ r fault, exited (read [Stop; Iteration r fault] st) = true).
Proof.
  change (read (Stop :: evs) st) with (read evs (stop st)).
  destruct (read_stopped evs (stop st)) as [Hl Ha]; [done|].
  split; [done|]. split; [done|].
  intros r fault. unfold Reader.read. simpl.
  destruct (exited st) eqn:He; [exact He | reflexivity].
Qed.

(** X5: a read of at most two bytes (a timeout that returns nothing, or a
    bare line terminator) is dropped without a trace: nothing is decoded,
    published or logged. *)
Theorem read_iter_short_read (raw : list byte) fault :
  length raw ≤ 2 → read_iter (Line raw) fault = [].
Proof.
  intros Hl. unfold Reader.read_iter, strip_terminator.
  replace (length raw - 2) with 0 by lia. rewrite take_0. simpl.
  by destruct fault as [[|k]|].
Qed.

(** X6: when a [bus.emit] raises while a line is processed, the calls
    already made are an initial part of those of the undisturbed run, with
    exactly as many emits as succeeded; nothing of the rest of the line is
    published, and one error is logged.  Without a raise the run is the
    undisturbed one and nothing is logged. *)
Theorem read_iter_cut_short (raw : list byte) fault :
  ∃ made raised,
    read_iter (Line raw) fault = made ++ when raised [LogError] ∧
    made `prefix_of` handle (strip_terminator raw) ∧
    (raised = false → made = handle (strip_terminator raw)) ∧
    (raised = true →
       ∃ k, fault = Some k ∧ Trace.emits made = k ∧
            k < Trace.emits (handle (strip_terminator raw))).
Proof.
  unfold Reader.read_iter.
  destruct (until_fault fault (handle (strip_terminator raw)))
    as [made raised] eqn:Hu.
  exists made, raised. split; [done|]. by apply until_fault_cut.
Qed.

End Codec.

Lemma read_iter_short_read_witness :
  read_iter ascii_strict ascii_replace (Line [x0d; x0a]) None = [].
Proof. apply read_iter_short_read. simpl. lia. Defined.

(** The third emit of a shutdown line (the timed spin) fails: the
    pass-through and the colour change are published; the spin, the mouth
    reset and the shutdown are not. *)
Example read_iter_cut_short_shutdown :
  read_iter ascii_strict ascii_replace
    (Line (list_byte_of_string "unit.shutdown" ++ [x0d; x0a])) (Some 2) =
    [Emit (Msg "unit.shutdown"); Emit eyes_gray; LogError].
Proof. by vm_compute. Qed.

End ReadLoopMore.

(** ** EnclosureWriter: bookkeeping, stop, bursts *)

Module WriterMore.
Import Writer.














(** A thread waiting in [get()] when [stop()] is called still sends the
    next command that arrives. *)
Example flush_one_more_after_stop :
  handed (log (the_writer
    (run [Flush true; Stop; CallWrite "a"; CallWrite "b"; Flush true; Flush true]
         start))) = [framed "a"].
Proof. reflexivity. Qed.

(** X9: a burst of calls to [write] on an idle writer: the first 16
    commands are queued in call order and their callers return; every
    further caller waits, in call order; nothing is put on the link before
    the thread runs. *)
Theorem write_burst (cmds : list string) :
  run (CallWrite <$> cmds) start =
    mkSystem
      (mkWriter true
         (mkQueue 16 (take 16 cmds) (Z.of_nat (length (take 16 cmds))))
         AtLoopTest [])
      (drop 16 cmds) (take 16 cmds).
Proof.
  induction cmds as [|c cmds IH] using rev_ind; [reflexivity|].
  rewrite fmap_app. cbn [fmap list_fmap]. rewrite WriterSpec.run_snoc, IH.
  cbn [step the_writer blocked enqueued].
  set (q := mkQueue 16 (take 16 cmds) (Z.of_nat (length (take 16 cmds)))).
  destruct (decide (16 ≤ length cmds)) as [Hfull|Hroom].
  - assert (full q = true) as Hf.
    { apply WriterSpec.full_16; [reflexivity|]. simpl. rewrite length_take. lia. }
    rewrite (WriterSpec.write_full c (mkWriter true q AtLoopTest []) Hf).
    by rewrite take_app_le, drop_app_le by lia.
  - assert (full q = false) as Hf.
    { apply not_true_is_false. rewrite WriterSpec.full_16 by reflexivity.
      simpl. rewrite length_take. lia. }
    rewrite (WriterSpec.write_room c (mkWriter true q AtLoopTest []) Hf).
    cbn [alive commands at_pc log maxsize items unfinished_tasks q].
    rewrite (take_ge cmds), (drop_ge cmds), (take_ge (cmds ++ [c])),
      (drop_ge (cmds ++ [c])) by (rewrite ?length_app; simpl; lia).
    rewrite length_app. simpl. do 3 f_equal. lia.
Qed.

End WriterMore.

(** ** MycroftMark1: edge cases of the claimed handlers *)

Module Mark1More.
Import Mark1.


Lemma str_of_int_not_True z : str_of_int z ≠ "True".
Proof.
  unfold str_of_int. destruct (Z.to_int z) as [u|u]; [|discriminate].
  destruct u; discriminate.
Qed.

Lemma py_str_True v :
  String.eqb (py_str v) "True" = true ↔ v = PyBool true ∨ v = PyStr "True".
Proof.
  rewrite String.eqb_eq. split.
  - destruct v as [|[]|z|s|l]; simpl; try discriminate; auto.
    + intros H. by apply str_of_int_not_True in H.
    + intros ->. auto.
  - by intros [-> | ->].
Qed.



(** X11: the command [on_display] formats from integer offsets x, y and
    an image code: ["mouth.icon=x=<x>,y=<y>,cP=<0|1>,<code>"], where the
    clear flag is 1 exactly when ["clearPrev"] is the boolean [True] or the
    string ["True"] (and 0 for 1, ["true"], or a missing key). *)
Theorem icon_command_format message d x y code :
  truthy_data message = Some d →
  py_int (dict_get d "xOffset" (PyStr "")) = Ok x →
  py_int (dict_get d "yOffset" (PyStr "")) = Ok y →
  dict_get d "img_code" (PyStr "") = PyStr code →
  let clear := String.eqb (py_str (dict_get d "clearPrev" (PyStr ""))) "True" in
  icon_command message =
    Ok ("mouth.icon=x=" +:+ str_of_int x +:+ ",y=" +:+ str_of_int y +:+
        ",cP=" +:+ (if clear then "1" else "0") +:+ "," +:+ code) ∧
  (clear = true ↔
     d !! "clearPrev" = Some (PyBool true) ∨ d !! "clearPrev" = Some (PyStr "True")).
Proof.
  intros Hd Hx Hy Hc clear. split.
  - unfold icon_command. rewrite Hd, Hx, Hy, Hc. simpl. fold clear.
    f_equal. rewrite !app_assoc_str. by destruct clear.
  - unfold clear. rewrite py_str_True. unfold dict_get.
    destruct (d !! "clearPrev") as [v|]; simpl.
    + split; intros [H|H]; inversion H; auto.
    + split; intros [H|H]; discriminate H.
Qed.

Lemma icon_command_format_witness :
  icon_command (Some (mkMessage "enclosure.mouth.display"
    (<["img_code" := PyStr "aIMAMAMPMPMPIA"]> (<["xOffset" := PyInt 4]>
       (<["yOffset" := PyInt (-1)]> (<["clearPrev" := PyStr "True"]> ∅)))))) =
    Ok "mouth.icon=x=4,y=-1,cP=1,aIMAMAMPMPMPIA".
Proof.
  destruct (icon_command_format
    (Some (mkMessage "enclosure.mouth.display"
      (<["img_code" := PyStr "aIMAMAMPMPMPIA"]> (<["xOffset" := PyInt 4]>
         (<["yOffset" := PyInt (-1)]> (<["clearPrev" := PyStr "True"]> ∅))))))
    (<["img_code" := PyStr "aIMAMAMPMPMPIA"]> (<["xOffset" := PyInt 4]>
         (<["yOffset" := PyInt (-1)]> (<["clearPrev" := PyStr "True"]> ∅))))
    4%Z (-1)%Z "aIMAMAMPMPMPIA") as [-> _]; by vm_compute.
Defined.





(** X14: on the percentages 0..100 the fill level never decreases as the
    percentage grows, and every level 0..23 is reached. *)
Theorem fill_amount_monotone_onto :
  (∀ p q a c,
      (0 ≤ p ≤ q)%Z → (q ≤ 100)%Z →
      fill_amount p = Ok a → fill_amount q = Ok c → (a ≤ c)%Z) ∧
  (∀ level, (0 ≤ level ≤ 23)%Z →
      ∃ p, (0 ≤ p ≤ 100)%Z ∧ fill_amount p = Ok level).
Proof.
  split.
  - intros p q a c Hp Hq Ha Hc.
    destruct (Mark1Spec.fill_amount_percent p) as [Hfp Hdp]; [lia|].
    destruct (Mark1Spec.fill_amount_percent q) as [Hfq Hdq]; [lia|].
    rewrite Hfp in Ha. rewrite Hfq in Hc. simplify_eq.
    rewrite Hdp, Hdq. apply Z.div_le_mono; lia.
  - intros level Hl.
    exists ((100 * level + 22) `div` 23)%Z.
    assert (forallb (λ l, match fill_amount ((100 * l + 22) `div` 23) with
                          | Ok a => (a =? l)%Z
                          | Raise _ => false
                          end) (Z.of_nat <$> seq 0 24) = true) as Ht
      by (vm_compute; reflexivity).
    rewrite forallb_forall in Ht. specialize (Ht level).
    split.
    + split; [apply Z.div_pos; lia|].
      apply Z.lt_succ_r, Z.div_lt_upper_bound; lia.
    + destruct (fill_amount _) as [a|e].
      * f_equal. apply Z.eqb_eq, Ht.
        apply in_map_iff. exists (Z.to_nat level). split; [lia|]. apply in_seq. lia.
      * discriminate Ht.
        apply in_map_iff. exists (Z.to_nat level). split; [lia|]. apply in_seq. lia.
Qed.

Lemma fill_amount_monotone_onto_witness :
  fill_amount 50 = Ok 12%Z ∧ fill_amount 100 = Ok 23%Z ∧ (12 ≤ 23)%Z.
Proof.
  split; [by vm_compute|]. split; [by vm_compute|].
  destruct fill_amount_monotone_onto as [H _].
  apply (H 50 100 12 23)%Z; (by vm_compute) || lia.
Defined.

End Mark1More.

(** ** MycroftMark1: weather, nap, pairing and side handlers *)

Module HandlersSpec.
Import Handlers.

Lemma weather_icon_int code icon :
  weather_icon (PyInt code) = Some icon →
  (0 ≤ code ≤ 7)%Z ∧ String.length icon = 18 ∧ String.prefix "II" icon = true.
Proof.
  unfold weather_icon, py_eq_int.
  repeat match goal with
         | |- context [(code =? ?k)%Z] =>
             destruct (Z.eqb_spec code k) as [->|?];
             [simpl; intros [= <-]; by repeat split|]
         end.
  discriminate.
Qed.

Lemma weather_icon_bool b :
  weather_icon (PyBool b) = weather_icon (PyInt (if b then 1 else 0)).
Proof. by destruct b. Qed.

(** X15: [on_weather_display] enqueues at most one command.  For an
    integer icon code 0..7 and a temperature that is present and not [None]
    the command is ["weather.display=<temp>,x=2,<icon>"] with an 18-character
    icon; the booleans count as the codes 0 and 1; for any other integer
    code, a missing code, a missing or [None] temperature, or no data at all,
    nothing is enqueued and nothing is raised. *)
Theorem on_weather_display_writes message :
  length (on_weather_display message) ≤ 1 ∧
  (∀ d code temp,
      truthy_data message = Some d →
      d !! "img_code" = Some (PyInt code) → (0 ≤ code ≤ 7)%Z →
      d !! "temp" = Some temp → temp ≠ PyNone →
      ∃ icon,
        weather_icon (PyInt code) = Some icon ∧ String.length icon = 18 ∧
        on_weather_display message =
          [Write ("weather.display=" +:+ py_str temp +:+ ",x=2," +:+ icon)]) ∧
  (∀ d b temp,
      truthy_data message = Some d →
      d !! "img_code" = Some (PyBool b) →
      d !! "temp" = Some temp → temp ≠ PyNone →
      ∃ icon,
        weather_icon (PyInt (if b then 1 else 0)) = Some icon ∧
        on_weather_display message =
          [Write ("weather.display=" +:+ py_str temp +:+ ",x=2," +:+ icon)]) ∧
  (∀ d code,
      truthy_data message = Some d →
      d !! "img_code" = Some (PyInt code) → (code < 0 ∨ 7 < code)%Z →
      on_weather_display message = []) ∧
  (∀ d,
      truthy_data message = Some d →
      d !! "img_code" = None ∨ d !! "temp" = None ∨ d !! "temp" = Some PyNone →
      on_weather_display message = []) ∧
  (truthy_data message = None → on_weather_display message = []).
Proof.
  split; [|split; [|split; [|split; [|split]]]].
  - unfold on_weather_display.
    repeat case_match; simpl; lia.
  - intros d code temp Hd Hc Hr Ht Hn. unfold on_weather_display, dict_get.
    rewrite Hd, Hc, Ht. simpl.
    assert (∃ icon, weather_icon (PyInt code) = Some icon) as [icon Hi].
    { assert (code = 0 ∨ code = 1 ∨ code = 2 ∨ code = 3 ∨ code = 4 ∨ code = 5 ∨
              code = 6 ∨ code = 7)%Z as Hcases by lia.
      destruct Hcases as [->|[->|[->|[->|[->|[->|[->| ->]]]]]]]; by eexists. }
    exists icon. rewrite Hi. split; [done|].
    split; [by apply weather_icon_int in Hi as (_ & Hlen & _)|].
    by rewrite bool_decide_eq_false_2 by done.
  - intros d b temp Hd Hc Ht Hn. unfold on_weather_display, dict_get.
    rewrite Hd, Hc, Ht. simpl. rewrite weather_icon_bool.
    destruct b; eexists; (split; [reflexivity|]);
      by rewrite bool_decide_eq_false_2 by done.
  - intros d code Hd Hc Hr. unfold on_weather_display, dict_get.
    rewrite Hd, Hc. simpl.
    destruct (weather_icon (PyInt code)) as [icon|] eqn:Hi; [|done].
    apply weather_icon_int in Hi. lia.
  - intros d Hd Hmiss. unfold on_weather_display, dict_get. rewrite Hd.
    destruct Hmiss as [Hc|[Ht|Ht]]; rewrite ?Hc, ?Ht; simpl; try done;
      by destruct (weather_icon _).
  - intros Hd. unfold on_weather_display. by rewrite Hd.
Qed.

Lemma on_weather_display_writes_witness :
  on_weather_display
    (Some (mkMessage "enclosure.weather.display"
             (<["img_code" := PyInt 3]> (<["temp" := PyInt (-5)]> ∅)))) =
    [Write "weather.display=-5,x=2,IIMAOJOFPBPJPFOBMA"].
Proof.
  destruct (on_weather_display_writes
    (Some (mkMessage "enclosure.weather.display"
             (<["img_code" := PyInt 3]> (<["temp" := PyInt (-5)]> ∅)))))
    as (_ & H & _).
  destruct (H (<["img_code" := PyInt 3]> (<["temp" := PyInt (-5)]> ∅)) 3%Z (PyInt (-5)))
    as (icon & Hi & _ & ->); [by vm_compute|by vm_compute|lia|by vm_compute|done|].
  vm_compute in Hi. by injection Hi as <-.
Defined.

(** X16: the eight weather icons are pairwise different, so the command
    sent identifies the icon code. *)
Theorem weather_icon_injective a b icon :
  weather_icon (PyInt a) = Some icon → weather_icon (PyInt b) = Some icon → a = b.
Proof.
  intros Ha Hb.
  destruct (weather_icon_int _ _ Ha) as [Hra _].
  destruct (weather_icon_int _ _ Hb) as [Hrb _].
  assert (a = 0 ∨ a = 1 ∨ a = 2 ∨ a = 3 ∨ a = 4 ∨ a = 5 ∨ a = 6 ∨ a = 7)%Z
    as Hca by lia.
  assert (b = 0 ∨ b = 1 ∨ b = 2 ∨ b = 3 ∨ b = 4 ∨ b = 5 ∨ b = 6 ∨ b = 7)%Z
    as Hcb by lia.
  destruct Hca as [->|[->|[->|[->|[->|[->|[->| ->]]]]]]];
    destruct Hcb as [->|[->|[->|[->|[->|[->|[->| ->]]]]]]];
    first [reflexivity | vm_compute in Ha, Hb; congruence].
Qed.

Lemma weather_icon_injective_witness :
  weather_icon (PyInt 5) = Some "IIAAIIMEODLBJAAAAA" ∧
  weather_icon (PyBool true) = Some "IIEEGBGDHLHDHBGEEA" ∧
  5%Z = 5%Z.
Proof.
  split; [reflexivity|]. split; [reflexivity|].
  apply (weather_icon_injective 5 5 "IIAAIIMEODLBJAAAAA"); reflexivity.
Defined.

(** X17: [on_awake] restores the brightness that [on_sleep] saved: after
    [on_sleep], whatever the state before, it ends with ["eyes.level=30"],
    the level the dimming started from.  While [old_brightness] has never
    been assigned (the class assigns it in [on_sleep] only) it raises
    [AttributeError] after the reset and the blink have been enqueued and two
    seconds slept.  [on_sleep] itself dims from 30 to 12 in steps of 2,
    sleeping 1.5 s in all, and then looks down. *)
Theorem nap_and_wake self :
  on_awake (fst (on_sleep self)) =
    ([ Write "eyes.reset"; Sleep 1000; Write "eyes.blink=b"; Sleep 1000;
       Write "eyes.level=30" ], None) ∧
  on_awake fresh =
    ([ Write "eyes.reset"; Sleep 1000; Write "eyes.blink=b"; Sleep 1000 ],
     Some AttributeError) ∧
  Mark1.writes (snd (on_sleep self)) =
    ((λ level, "eyes.level=" +:+ str_of_int level) <$>
       [30; 28; 26; 24; 22; 20; 18; 16; 14; 12]%Z) ++ ["eyes.look=d"] ∧
  Trace.slept (snd (on_sleep self)) = 1500%N.
Proof. by repeat split. Qed.

Lemma text_shown t (d : gmap string pyval) s before :
  show_text (mkMessage t (<["text" := PyStr s]> d)) before =
    mkRun (mkMessage t (<["text" := PyStr s]> d))
          (before ++ [Bridge (Write ("mouth.text=" +:+ s))]) None.
Proof.
  unfold show_text, on_text.
  rewrite (Mark1Spec.truthy_lookup t _ "text" (PyStr s)) by apply lookup_insert_eq.
  unfold dict_get. by rewrite lookup_insert_eq.
Qed.

(** X18: [handle_not_paired] switches the mouth events off and shows the
    pairing URL followed by six spaces, storing that text in the message it
    was given.  A missing, [None], empty or otherwise false ["pairing_url"]
    gives ["home.mycroft.ai"]; a true value that is not a string raises
    [TypeError] with the mouth events already off, nothing shown and the
    message unchanged. *)
Theorem handle_not_paired_shows_url t (d : gmap string pyval) :
  let given := dict_get d "pairing_url" PyNone in
  (py_truthy given = false →
     handle_not_paired (mkMessage t d) =
       mkRun (mkMessage t (<["text" := PyStr "home.mycroft.ai      "]> d))
             [ DeactivateMouthEvents;
               Bridge (Write "mouth.text=home.mycroft.ai      ") ] None) ∧
  (∀ url, given = PyStr url → url ≠ "" →
     handle_not_paired (mkMessage t d) =
       mkRun (mkMessage t (<["text" := PyStr (url +:+ "      ")]> d))
             [ DeactivateMouthEvents;
               Bridge (Write ("mouth.text=" +:+ url +:+ "      ")) ] None) ∧
  (py_truthy given = true → (∀ url, given ≠ PyStr url) →
     handle_not_paired (mkMessage t d) =
       mkRun (mkMessage t d) [DeactivateMouthEvents] (Some (Builtin TypeError))).
Proof.
  intros given. unfold handle_not_paired. cbn [data msg_type]. fold given.
  split; [|split].
  - intros ->. by rewrite text_shown.
  - intros url Hg Hne. rewrite Hg. simpl.
    destruct (String.eqb_spec url "") as [|_]; [done|]. simpl.
    by rewrite text_shown.
  - intros -> Hns. destruct given; try done. by destruct (Hns s).
Qed.

Lemma handle_not_paired_shows_url_witness :
  handle_not_paired (mkMessage "mycroft.not.paired" (<["pairing_url" := PyStr ""]> ∅)) =
    mkRun (mkMessage "mycroft.not.paired"
             (<["text" := PyStr "home.mycroft.ai      "]>
                (<["pairing_url" := PyStr ""]> ∅)))
          [ DeactivateMouthEvents;
            Bridge (Write "mouth.text=home.mycroft.ai      ") ] None.
Proof.
  apply (handle_not_paired_shows_url "mycroft.not.paired"
           (<["pairing_url" := PyStr ""]> ∅)).
  by vm_compute.
Defined.

(** X19: [handle_pairing_code] raises [KeyError] when the message has no
    ["code"], with the mouth events already switched off and nothing shown;
    a string code is stored as the message's text and shown; a code that is
    not a string is still stored as the text before [TypeError] is raised,
    and nothing is shown. *)
Theorem handle_pairing_code_shows_code t (d : gmap string pyval) :
  (d !! "code" = None →
     handle_pairing_code (mkMessage t d) =
       mkRun (mkMessage t d) [DeactivateMouthEvents] (Some KeyError)) ∧
  (∀ code, d !! "code" = Some (PyStr code) →
     handle_pairing_code (mkMessage t d) =
       mkRun (mkMessage t (<["text" := PyStr code]> d))
             [DeactivateMouthEvents; Bridge (Write ("mouth.text=" +:+ code))] None) ∧
  (∀ v, d !! "code" = Some v → (∀ code, v ≠ PyStr code) →
     handle_pairing_code (mkMessage t d) =
       mkRun (mkMessage t (<["text" := v]> d)) [DeactivateMouthEvents]
             (Some (Builtin TypeError))).
Proof.
  unfold handle_pairing_code. cbn [data msg_type]. split; [|split].
  - by intros ->.
  - intros code ->. by rewrite text_shown.
  - intros v -> Hns. unfold show_text, on_text.
    rewrite (Mark1Spec.truthy_lookup t _ "text" v) by apply lookup_insert_eq.
    unfold dict_get. rewrite lookup_insert_eq. simpl.
    destruct v; try done. by destruct (Hns s).
Qed.

Lemma handle_pairing_code_shows_code_witness :
  handle_pairing_code (mkMessage "mycroft.pairing.code" (<["token" := PyStr "x"]> ∅)) =
    mkRun (mkMessage "mycroft.pairing.code" (<["token" := PyStr "x"]> ∅))
          [DeactivateMouthEvents] (Some KeyError).
Proof.
  apply (handle_pairing_code_shows_code "mycroft.pairing.code"
           (<["token" := PyStr "x"]> ∅)).
  by vm_compute.
Defined.

(** X20: the two side handlers differ without data: [on_eyes_blink] blinks
    both eyes (["eyes.blink=b"]) while [on_eyes_look] enqueues nothing.  With
    data, each appends the given side unchecked, [on_eyes_look] sending an
    empty side when the key is missing; a side that is not a string raises
    [TypeError] in both and nothing is enqueued. *)
Theorem side_handlers message :
  (truthy_data message = None →
     on_eyes_blink message = Ok [Write "eyes.blink=b"] ∧
     on_eyes_look message = Ok []) ∧
  (∀ d, truthy_data message = Some d → d !! "side" = None →
     on_eyes_blink message = Ok [Write "eyes.blink=b"] ∧
     on_eyes_look message = Ok [Write "eyes.look="]) ∧
  (∀ d side, truthy_data message = Some d → d !! "side" = Some (PyStr side) →
     on_eyes_blink message = Ok [Write ("eyes.blink=" +:+ side)] ∧
     on_eyes_look message = Ok [Write ("eyes.look=" +:+ side)]) ∧
  (∀ d v, truthy_data message = Some d → d !! "side" = Some v →
     (∀ side, v ≠ PyStr side) →
     on_eyes_blink message = Raise TypeError ∧
     on_eyes_look message = Raise TypeError).
Proof.
  unfold on_eyes_blink, on_eyes_look, dict_get. split; [|split; [|split]].
  - by intros ->.
  - by intros d -> ->.
  - by intros d side -> ->.
  - intros d v -> -> Hns. simpl. destruct v; try done. by destruct (Hns s).
Qed.

Lemma side_handlers_witness :
  on_eyes_blink (Some (mkMessage "enclosure.eyes.blink" (<["side" := PyInt 1]> ∅))) =
    Raise TypeError.
Proof.
  destruct (side_handlers
    (Some (mkMessage "enclosure.eyes.blink" (<["side" := PyInt 1]> ∅))))
    as (_ & _ & _ & H).
  by destruct (H (<["side" := PyInt 1]> ∅) (PyInt 1)) as [-> _].
Defined.

End HandlersSpec.
